(** * CompanionAgent: layer store, interaction gate and action channel

    A shallow embedding of the browser front end
    ([static/js/canvas.js], [static/js/websocket.js],
    [static/js/conversation.js]) and the properties of its layer
    isolation and synchronisation protocol.

    JavaScript objects are modelled by value.  The clock ([Date.now()]),
    the serializer ([JSON.stringify]) and the objects that Fabric.js
    builds are inputs of the functions that use them. *)

From Stdlib Require Import ZArith Lia.
From stdpp Require Import base decidable option list strings gmap pretty.

(** ** JavaScript values *)

(** Truthiness of a string: only the empty string is falsy. *)
Definition truthy (s : string) : bool := bool_decide (s ≠ EmptyString).

(** [v || d] for a value that is [null] or a string. *)
Definition or_else (v : option string) (d : string) : string :=
  match v with
  | Some s => if truthy s then s else d
  | None => d
  end.

(** [String(v)], the property name a [Map] key turns into when it indexes
    a plain object: [null] becomes the name ["null"]. *)
Definition String_of (v : option string) : string := default "null" v.

(** ** [Map]: keyed entries in insertion order *)

Section JsMap.
Context {K V : Type} `{EqDecision K}.

Fixpoint Map_get (k : K) (m : list (K * V)) : option V :=
  match m with
  | [] => None
  | (k', v) :: m' => if decide (k = k') then Some v else Map_get k m'
  end.

Definition Map_has (k : K) (m : list (K * V)) : bool :=
  match Map_get k m with Some _ => true | None => false end.

(** [set] keeps the position of an existing key and appends a new one. *)
Fixpoint Map_set (k : K) (v : V) (m : list (K * V)) : list (K * V) :=
  match m with
  | [] => [(k, v)]
  | (k', v') :: m' =>
      if decide (k = k') then (k, v) :: m' else (k', v') :: Map_set k v m'
  end.

Definition Map_clear (m : list (K * V)) : list (K * V) := [].

End JsMap.

(** ** Drawable objects *)

(** [path.data], the ownership tag the canvas manager attaches; [agent]
    is [null] or a string. *)
Record ObjData := { agent : option string; timestamp : Z }.

(** A Fabric.js object.  [oid] stands for the identity of the JavaScript
    object; the geometry is not inspected by the code and is left out. *)
Record FabricObject := {
  oid : nat;
  type : string;
  stroke : string;
  strokeWidth : Z;
  data : option ObjData
}.

Record Position := { x : Z; y : Z }.

(** What a layer holds: Fabric objects, and the records
    [{type: 'mermaid', id, content, position}] of [addMermaidDiagram]. *)
Inductive LayerObject :=
| FabricObj (o : FabricObject)
| MermaidObj (id content : string) (position : Position).

#[global] Instance ObjData_eq_dec : EqDecision ObjData.
Proof. solve_decision. Defined.
#[global] Instance FabricObject_eq_dec : EqDecision FabricObject.
Proof. solve_decision. Defined.
#[global] Instance Position_eq_dec : EqDecision Position.
Proof. solve_decision. Defined.
#[global] Instance LayerObject_eq_dec : EqDecision LayerObject.
Proof. solve_decision. Defined.

Definition set_data (o : FabricObject) (d : ObjData) : FabricObject :=
  {| oid := oid o; type := type o; stroke := stroke o;
     strokeWidth := strokeWidth o; data := Some d |}.

(** ** Agents and the modification request *)

Record Agent := {
  agent_id : string;
  name : string;
  description : string;
  color : string;
  tools : list string;
  server_url : string;
  is_active : bool
}.

(** The payload the request form builds. *)
Record RequestData := {
  rd_description : string;
  rd_type : string;
  rd_timestamp : Z
}.

Record ModificationRequest := {
  from_agent_id : string;
  to_agent_id : string;
  request_type : string;
  request_data : RequestData;
  request_timestamp : Z
}.

(** ** Messages of the channel *)

(** [action.data]: every field is optional on the wire. *)
Record ActionData := {
  d_path : option FabricObject;
  d_color : option string;
  d_width : option Z;
  d_content : option string;
  d_position : option Position;
  d_cleared_agent_id : option string;
  d_request : option ModificationRequest
}.

Definition no_data : ActionData :=
  {| d_path := None; d_color := None; d_width := None; d_content := None;
     d_position := None; d_cleared_agent_id := None; d_request := None |}.

Record CanvasAction := {
  action_agent_id : option string;
  action_type : string;
  action_data : option ActionData
}.

(** A message, by its [type] field. *)
Inductive Message :=
| add_agent (a : Agent)
| update_agent (a : Agent)
| remove_agent (id : string)
| discover_agents
| canvas_action (action : CanvasAction)
| query_agents (query : string)
| clear_agent_layer (id : string)
| agent_added (a : Agent)
| agent_updated (a : Agent)
| agent_removed (id : string)
| modification_request (action : CanvasAction)
| agent_responses (query : string) (responses : list (string * string))
| layer_cleared (id : string)
| success (text : string)
| error (text : string)
| other_message (type_ : string).

#[global] Instance Agent_eq_dec : EqDecision Agent.
Proof. solve_decision. Defined.
#[global] Instance RequestData_eq_dec : EqDecision RequestData.
Proof. solve_decision. Defined.
#[global] Instance ModificationRequest_eq_dec : EqDecision ModificationRequest.
Proof. solve_decision. Defined.
#[global] Instance ActionData_eq_dec : EqDecision ActionData.
Proof. solve_decision. Defined.
#[global] Instance CanvasAction_eq_dec : EqDecision CanvasAction.
Proof. solve_decision. Defined.
#[global] Instance Message_eq_dec : EqDecision Message.
Proof. solve_decision. Defined.

(** ** Completions and the state of the page *)

(** A JavaScript call either returns or throws. *)
Inductive Completion (A : Type) :=
| Return (a : A)
| Throw (exn : string).
Arguments Return {A} a.
Arguments Throw {A} exn.

(** A method that reads and writes a state [S]: how it completes, and the
    state it leaves.  What was written before a [throw] stays written. *)
Definition JS (S A : Type) : Type := S → Completion A * S.

#[global] Instance JS_ret {S} : MRet (JS S) := λ A a s, (Return a, s).
#[global] Instance JS_bind {S} : MBind (JS S) := λ A B f m s,
  match m s with
  | (Return a, s') => f a s'
  | (Throw exn, s') => (Throw exn, s')
  end.

(** [try { body } catch (error) { handler }] *)
Definition try_catch {S A} (body : JS S A) (handler : string → JS S A) : JS S A :=
  λ s, match body s with
       | (Return a, s') => (Return a, s')
       | (Throw exn, s') => handler exn s'
       end.

Definition modify {S} (f : S → S) : JS S () := λ s, (Return (), f s).

Definition throw {S A} (exn : string) : JS S A := λ s, (Throw exn, s).

Inductive ReadyState := CONNECTING | OPEN | CLOSING | CLOSED.

#[global] Instance ReadyState_eq_dec : EqDecision ReadyState.
Proof. solve_decision. Defined.

(** The [#connection-status] element. *)
Record StatusElement := { textContent : string; className : string }.

(** [WebSocketManager].  [ws] is [null] or a socket, of which the code
    reads [readyState].  [scheduled] records the delay of every reconnect
    timer set so far and [wire] every message handed to [ws.send], both
    in order. *)
Record WebSocketManager := {
  ws : option ReadyState;
  reconnectAttempts : nat;
  maxReconnectAttempts : nat;
  reconnectDelay : nat;
  isConnected : bool;
  status : StatusElement;
  scheduled : list nat;
  wire : list Message
}.

(** [CanvasManager].  [canvas] lists the objects on the Fabric canvas. *)
Record CanvasManager := {
  canvas : list FabricObject;
  brush_color : string;
  brush_width : Z;
  isDrawing : bool;
  currentAgent : option string;
  layers : list (option string * list LayerObject);
  undoStack : list (list FabricObject)
}.

Definition maxUndoSteps : nat := 50.

Record AgentManager := {
  agents : gmap string Agent;
  activeAgent : option string
}.

(** A conversation entry; its random id and its date are left out. *)
Record ConvMessage := {
  m_type : string;
  m_sender : string;
  m_content : string;
  m_agentId : option string;
  m_agentColor : option string
}.

Record ConversationManager := { messages : list ConvMessage }.

Definition maxMessages : nat := 1000.

(** The page: the four global managers and the ids of the elements of
    the document.  [websocketManager] is [window.websocketManager], which
    the other scripts test before they use it. *)
Record App := {
  canvasManager : CanvasManager;
  agentManager : AgentManager;
  conversationManager : ConversationManager;
  websocketManager : option WebSocketManager;
  elements : list string
}.

Definition with_canvasManager (s : App) (c : CanvasManager) : App :=
  {| canvasManager := c; agentManager := agentManager s;
     conversationManager := conversationManager s;
     websocketManager := websocketManager s; elements := elements s |}.

Definition with_agentManager (s : App) (a : AgentManager) : App :=
  {| canvasManager := canvasManager s; agentManager := a;
     conversationManager := conversationManager s;
     websocketManager := websocketManager s; elements := elements s |}.

Definition with_conversationManager (s : App) (c : ConversationManager) : App :=
  {| canvasManager := canvasManager s; agentManager := agentManager s;
     conversationManager := c;
     websocketManager := websocketManager s; elements := elements s |}.

Definition with_websocketManager (s : App) (w : option WebSocketManager) : App :=
  {| canvasManager := canvasManager s; agentManager := agentManager s;
     conversationManager := conversationManager s;
     websocketManager := w; elements := elements s |}.

Definition with_elements (s : App) (l : list string) : App :=
  {| canvasManager := canvasManager s; agentManager := agentManager s;
     conversationManager := conversationManager s;
     websocketManager := websocketManager s; elements := l |}.

Definition with_layers (c : CanvasManager) (l : list (option string * list LayerObject)) : CanvasManager :=
  {| canvas := canvas c; brush_color := brush_color c; brush_width := brush_width c;
     isDrawing := isDrawing c; currentAgent := currentAgent c; layers := l;
     undoStack := undoStack c |}.

Definition with_canvas (c : CanvasManager) (l : list FabricObject) : CanvasManager :=
  {| canvas := l; brush_color := brush_color c; brush_width := brush_width c;
     isDrawing := isDrawing c; currentAgent := currentAgent c; layers := layers c;
     undoStack := undoStack c |}.

(** ** websocket.js *)

Section Page.

(** [JSON.stringify]; [None] when it throws. *)
Variable JSON_stringify : Message → option string.

(** The fields set by the constructor, before [init] runs. *)
Definition WebSocketManager_new (el : StatusElement) : WebSocketManager :=
  {| ws := None; reconnectAttempts := 0; maxReconnectAttempts := 5;
     reconnectDelay := 1000; isConnected := false; status := el;
     scheduled := []; wire := [] |}.

Definition updateConnectionStatus (connected : bool) (message : option string)
    (w : WebSocketManager) : WebSocketManager :=
  {| ws := ws w; reconnectAttempts := reconnectAttempts w;
     maxReconnectAttempts := maxReconnectAttempts w;
     reconnectDelay := reconnectDelay w; isConnected := isConnected w;
     status :=
       if connected
       then {| textContent := "Online"; className := "status-online" |}
       else {| textContent := or_else message "Offline";
               className := "status-offline" |};
     scheduled := scheduled w; wire := wire w |}.

Definition handleConnectionError (w : WebSocketManager) : WebSocketManager :=
  if bool_decide (reconnectAttempts w < maxReconnectAttempts w)
  then
    let attempts := S (reconnectAttempts w) in
    {| ws := ws w; reconnectAttempts := attempts;
       maxReconnectAttempts := maxReconnectAttempts w;
       reconnectDelay := reconnectDelay w; isConnected := isConnected w;
       status := status w;
       scheduled := scheduled w ++ [reconnectDelay w * attempts];
       wire := wire w |}
  else updateConnectionStatus false (Some "Max reconnection attempts reached") w.

(** [connect]: [thrown] tells whether [new WebSocket(wsUrl)] throws. *)
Definition connect (thrown : bool) (w : WebSocketManager) : WebSocketManager :=
  if thrown then handleConnectionError w
  else
    {| ws := Some CONNECTING; reconnectAttempts := reconnectAttempts w;
       maxReconnectAttempts := maxReconnectAttempts w;
       reconnectDelay := reconnectDelay w; isConnected := isConnected w;
       status := status w; scheduled := scheduled w; wire := wire w |}.

(** The socket reaches [readyState] [r]; the browser does this before it
    calls the listener. *)
Definition socket_becomes (r : ReadyState) (w : WebSocketManager) : WebSocketManager :=
  {| ws := Some r; reconnectAttempts := reconnectAttempts w;
     maxReconnectAttempts := maxReconnectAttempts w;
     reconnectDelay := reconnectDelay w; isConnected := isConnected w;
     status := status w; scheduled := scheduled w; wire := wire w |}.

Definition set_isConnected (b : bool) (w : WebSocketManager) : WebSocketManager :=
  {| ws := ws w; reconnectAttempts := reconnectAttempts w;
     maxReconnectAttempts := maxReconnectAttempts w;
     reconnectDelay := reconnectDelay w; isConnected := b;
     status := status w; scheduled := scheduled w; wire := wire w |}.

(** [ws.onopen]; the delayed agent discovery it also starts is not part
    of the connection state. *)
Definition onopen (w : WebSocketManager) : WebSocketManager :=
  let w := set_isConnected true (socket_becomes OPEN w) in
  updateConnectionStatus true None
    {| ws := ws w; reconnectAttempts := 0;
       maxReconnectAttempts := maxReconnectAttempts w;
       reconnectDelay := reconnectDelay w; isConnected := isConnected w;
       status := status w; scheduled := scheduled w; wire := wire w |}.

Definition onclose (wasClean : bool) (w : WebSocketManager) : WebSocketManager :=
  let w := updateConnectionStatus false None
             (set_isConnected false (socket_becomes CLOSED w)) in
  if negb wasClean then handleConnectionError w else w.

Definition onerror (w : WebSocketManager) : WebSocketManager :=
  handleConnectionError w.

(** [this.ws.send(JSON.stringify(message))]: throws when the serializer
    does; an open socket takes the frame. *)
Definition socket_send (message : Message) : JS WebSocketManager () := λ w,
  match JSON_stringify message with
  | Some _ =>
      (Return (), {| ws := ws w; reconnectAttempts := reconnectAttempts w;
                     maxReconnectAttempts := maxReconnectAttempts w;
                     reconnectDelay := reconnectDelay w;
                     isConnected := isConnected w; status := status w;
                     scheduled := scheduled w; wire := wire w ++ [message] |})
  | None => (Throw "TypeError", w)
  end.

Definition socket_open (w : WebSocketManager) : bool :=
  isConnected w && bool_decide (ws w = Some OPEN).

Definition sendMessage (message : Message) : JS WebSocketManager bool := λ w,
  if socket_open w
  then try_catch (socket_send message ;; mret true) (λ _, mret false) w
  else (Return false, w).

(** [window.websocketManager.sendMessage(message)] behind the test
    [if (window.websocketManager)]; the result is dropped. *)
Definition send_if_present (message : Message) : JS App () := λ s,
  match websocketManager s with
  | Some w =>
      let '(sent, w') := sendMessage message w in
      (match sent with Return _ => Return () | Throw exn => Throw exn end,
       with_websocketManager s (Some w'))
  | None => (Return (), s)
  end.


(** ** conversation.js: the conversation log *)

Definition addMessage (message : ConvMessage) (c : ConversationManager) : ConversationManager :=
  let pushed := messages c ++ [message] in
  {| messages := if bool_decide (maxMessages < length pushed) then tail pushed else pushed |}.

Definition addSystemMessage (content : string) (s : App) : App :=
  with_conversationManager s
    (addMessage {| m_type := "system"; m_sender := "System"; m_content := content;
                   m_agentId := None; m_agentColor := None |}
       (conversationManager s)).

Definition getAgentById (agentId : option string) (s : App) : option Agent :=
  agentId ≫= λ i, agents (agentManager s) !! i.

(** [agent ? agent.name : `Agent ${agentId}`] *)
Definition agent_label (agentId : option string) (s : App) : string :=
  match getAgentById agentId s with
  | Some a => name a
  | None => "Agent " +:+ String_of agentId
  end.

Definition addAgentMessage (agentId content : string) (s : App) : App :=
  let found := getAgentById (Some agentId) s in
  with_conversationManager s
    (addMessage {| m_type := "agent";
                   m_sender := agent_label (Some agentId) s;
                   m_content := content;
                   m_agentId := Some agentId;
                   m_agentColor := Some (from_option color "#666" found) |}
       (conversationManager s)).

(** ** canvas.js *)

(** The constructor and [init]: an empty canvas in drawing mode, and the
    human layer. *)
Definition CanvasManager_new : CanvasManager :=
  {| canvas := []; brush_color := "#000000"; brush_width := 5;
     isDrawing := false; currentAgent := None;
     layers := Map_set (Some "human") [] []; undoStack := [] |}.

(** A pointer event of Fabric: the object under the pointer, and whether
    the propagation of the DOM event [e.e] was stopped. *)
Record PointerEvent := {
  target : option FabricObject;
  propagationStopped : bool
}.

(** First [mouse:down] listener. *)
Definition on_mouse_down_draw (c : CanvasManager) : CanvasManager :=
  {| canvas := canvas c; brush_color := brush_color c; brush_width := brush_width c;
     isDrawing := true; currentAgent := Some "human"; layers := layers c;
     undoStack := undoStack c |}.

(** Second [mouse:down] listener, the ownership gate.  It gives the
    event back and what it returns: [Some false] for [return false],
    [None] when it falls through. *)
Definition on_mouse_down_gate (e : PointerEvent) (c : CanvasManager)
    : PointerEvent * option bool :=
  match target e with
  | Some t =>
      match data t with
      | Some d =>
          if from_option truthy false (agent d)
          then
            let objectAgent := agent d in
            if bool_decide (objectAgent ≠ currentAgent c)
               && bool_decide (currentAgent c ≠ Some "human")
            then ({| target := target e; propagationStopped := true |}, Some false)
            else (e, None)
          else (e, None)
      | None => (e, None)
      end
  | None => (e, None)
  end.

(** Fabric fires the listeners of [mouse:down] in the order of their
    registration. *)
Definition mouse_down (e : PointerEvent) (c : CanvasManager)
    : CanvasManager * (PointerEvent * option bool) :=
  let c' := on_mouse_down_draw c in
  (c', on_mouse_down_gate e c').

Definition saveToUndoStack (c : CanvasManager) : CanvasManager :=
  let pushed := undoStack c ++ [canvas c] in
  {| canvas := canvas c; brush_color := brush_color c; brush_width := brush_width c;
     isDrawing := isDrawing c; currentAgent := currentAgent c; layers := layers c;
     undoStack := if bool_decide (maxUndoSteps < length pushed) then tail pushed else pushed |}.

Definition mouse_up (c : CanvasManager) : CanvasManager :=
  saveToUndoStack
    {| canvas := canvas c; brush_color := brush_color c; brush_width := brush_width c;
       isDrawing := false; currentAgent := currentAgent c; layers := layers c;
       undoStack := undoStack c |}.

(** [undoLastAction]: the canvas goes back to the last snapshot; the
    layers are not part of a snapshot. *)
Definition undoLastAction (c : CanvasManager) : CanvasManager :=
  match last (undoStack c) with
  | Some previousState =>
      {| canvas := previousState; brush_color := brush_color c;
         brush_width := brush_width c; isDrawing := isDrawing c;
         currentAgent := currentAgent c; layers := layers c;
         undoStack := removelast (undoStack c) |}
  | None => c
  end.

(** [if (!layers.has(k)) layers.set(k, []); layers.get(k).push(obj)] *)
Definition push_layer (k : option string) (obj : LayerObject)
    (ls : list (option string * list LayerObject)) : list (option string * list LayerObject) :=
  let ls' := if Map_has k ls then ls else Map_set k [] ls in
  Map_set k (default [] (Map_get k ls') ++ [obj]) ls'.

Definition sendCanvasAction (actionData : CanvasAction) : JS App () :=
  send_if_present (canvas_action actionData).

(** Writing [path.data] changes the object the canvas already shows. *)
Definition retag (path : FabricObject) (l : list FabricObject) : list FabricObject :=
  (λ o, if decide (oid o = oid path) then path else o) <$> l.

(** The [path:created] listener. *)
Definition on_path_created (path : FabricObject) (now : Z) : JS App () := λ s,
  let c := canvasManager s in
  let path := set_data path {| agent := Some (or_else (currentAgent c) "human"); timestamp := now |} in
  let c := with_layers (with_canvas c (retag path (canvas c)))
             (push_layer (currentAgent c) (FabricObj path) (layers c)) in
  let s := with_canvasManager s c in
  if bool_decide (currentAgent c ≠ Some "human")
  then sendCanvasAction
         {| action_agent_id := currentAgent c; action_type := "draw";
            action_data := Some {| d_path := Some path; d_color := Some (stroke path);
                                   d_width := Some (strokeWidth path); d_content := None;
                                   d_position := None; d_cleared_agent_id := None;
                                   d_request := None |} |} s
  else (Return (), s).

Definition setAgentDrawingMode (agentId color : string) (c : CanvasManager) : CanvasManager :=
  {| canvas := canvas c; brush_color := color; brush_width := brush_width c;
     isDrawing := isDrawing c; currentAgent := Some agentId;
     layers := if Map_has (Some agentId) (layers c) then layers c
               else Map_set (Some agentId) [] (layers c);
     undoStack := undoStack c |}.

(** [addAgentDrawing]; [path] is the object [fabric.util.enlivenObjects]
    hands to the callback. *)
Definition addAgentDrawing (agentId : option string) (path : FabricObject) (now : Z)
    (c : CanvasManager) : CanvasManager :=
  let path := set_data path {| agent := agentId; timestamp := now |} in
  with_layers (with_canvas c (canvas c ++ [path]))
    (push_layer agentId (FabricObj path) (layers c)).

(** [canvas.remove(obj)] takes out the object itself, if it is there. *)
Fixpoint canvas_remove (o : FabricObject) (l : list FabricObject) : list FabricObject :=
  match l with
  | [] => []
  | o' :: l' => if decide (oid o' = oid o) then l' else o' :: canvas_remove o l'
  end.

Definition remove_from_canvas (l : list FabricObject) (obj : LayerObject) : list FabricObject :=
  match obj with
  | FabricObj o => canvas_remove o l
  | MermaidObj _ _ _ => l
  end.

Definition clearAgentLayer (agentId : string) : JS App () := λ s,
  let c := canvasManager s in
  if Map_has (Some agentId) (layers c)
  then
    let layerObjects := default [] (Map_get (Some agentId) (layers c)) in
    let c := with_layers (with_canvas c (foldl remove_from_canvas (canvas c) layerObjects))
               (Map_set (Some agentId) [] (layers c)) in
    sendCanvasAction
      {| action_agent_id := Some "system"; action_type := "layer_cleared";
         action_data := Some {| d_path := None; d_color := None; d_width := None;
                                d_content := None; d_position := None;
                                d_cleared_agent_id := Some agentId;
                                d_request := None |} |}
      (with_canvasManager s c)
  else (Return (), s).

(** [CanvasManager.requestModification] *)
Definition canvas_requestModification (fromAgentId toAgentId : string)
    (requestData : RequestData) (now : Z) : JS App ModificationRequest :=
  let request :=
    {| from_agent_id := fromAgentId; to_agent_id := toAgentId;
       request_type := "modification"; request_data := requestData;
       request_timestamp := now |} in
  sendCanvasAction
    {| action_agent_id := Some fromAgentId; action_type := "modification_request";
       action_data := Some {| d_path := None; d_color := None; d_width := None;
                              d_content := None; d_position := None;
                              d_cleared_agent_id := None;
                              d_request := Some request |} |} ;;
  mret request.

Record LayerInfo := {
  object_count : nat;
  object_types : list string;
  last_modified : Z
}.

(** [obj.type || 'path'] *)
Definition type_of (obj : LayerObject) : string :=
  match obj with
  | FabricObj o => or_else (Some (type o)) "path"
  | MermaidObj _ _ _ => "mermaid"
  end.

(** [obj.data?.timestamp || 0] *)
Definition timestamp_of (obj : LayerObject) : Z :=
  match obj with
  | FabricObj o => from_option timestamp 0%Z (data o)
  | MermaidObj _ _ _ => 0%Z
  end.

Definition layer_info (objects : list LayerObject) : LayerInfo :=
  {| object_count := length objects;
     object_types := type_of <$> objects;
     last_modified :=
       match timestamp_of <$> objects with
       | [] => 0%Z
       | t :: ts => foldl Z.max t ts
       end |}.

(** [getLayerInfo]: one property per entry of the map, assigned in the
    order of the entries. *)
Definition getLayerInfo (c : CanvasManager) : gmap string LayerInfo :=
  foldl (λ layerInfo entry, <[String_of entry.1 := layer_info entry.2]> layerInfo)
    ∅ (layers c).

Definition getLayerObjects (agentId : option string) (c : CanvasManager) : list LayerObject :=
  default [] (Map_get agentId (layers c)).

Definition hasLayerObjects (agentId : option string) (c : CanvasManager) : bool :=
  Map_has agentId (layers c)
  && bool_decide (0 < length (default [] (Map_get agentId (layers c)))).

Definition clearCanvas : JS App () := λ s,
  let c := canvasManager s in
  let c := {| canvas := []; brush_color := brush_color c; brush_width := brush_width c;
              isDrawing := isDrawing c; currentAgent := currentAgent c;
              layers := Map_set (Some "human") [] (Map_clear (layers c));
              undoStack := [] |} in
  sendCanvasAction
    {| action_agent_id := Some "system"; action_type := "clear";
       action_data := Some no_data |}
    (with_canvasManager s c).

(** [addMermaidDiagram]: the container goes into the document, the
    record into the layer; it returns the id of the container. *)
Definition addMermaidDiagram (content : string) (position : Position)
    (agentId : option string) (now : Z) (s : App) : string * App :=
  let diagramId := "mermaid-" +:+ pretty now in
  let s := with_elements s (elements s ++ [diagramId]) in
  let c := canvasManager s in
  (diagramId,
   with_canvasManager s
     (with_layers c (push_layer agentId (MermaidObj diagramId content position) (layers c)))).

(** [element.remove()] on the first element that carries the id. *)
Fixpoint remove_element (i : string) (l : list string) : list string :=
  match l with
  | [] => []
  | j :: l' => if decide (j = i) then l' else j :: remove_element i l'
  end.

Definition removeMermaidDiagram (diagramId : string) (s : App) : App :=
  if bool_decide (diagramId ∈ elements s)
  then with_elements s (remove_element diagramId (elements s))
  else s.

(** ** conversation.js: the agent manager *)

Definition with_agents (s : App) (m : gmap string Agent) : App :=
  with_agentManager s {| agents := m; activeAgent := activeAgent (agentManager s) |}.

Definition quote_mark : string := String (Stdlib.Strings.Ascii.ascii_of_nat 34) EmptyString.

Definition addAgentToUI (a : Agent) (s : App) : App :=
  let s := with_agents s (<[agent_id a := a]> (agents (agentManager s))) in
  with_elements s (elements s ++ ["agent-" +:+ agent_id a]).

(** [updateAgentInUI]; rewriting the card leaves the state as it is. *)
Definition updateAgentInUI (a : Agent) (s : App) : App :=
  with_agents s (<[agent_id a := a]> (agents (agentManager s))).

(** [AgentManager.requestModification] *)
Definition requestModification (fromAgentId toAgentId : string)
    (requestData : RequestData) (now : Z) : JS App (option ModificationRequest) := λ s,
  match agents (agentManager s) !! fromAgentId, agents (agentManager s) !! toAgentId with
  | Some fromAgent, Some toAgent =>
      (request ← canvas_requestModification fromAgentId toAgentId requestData now;
       modify (addSystemMessage
                 (name fromAgent +:+ " has requested a modification from "
                  +:+ name toAgent +:+ ": "
                  +:+ or_else (Some (rd_description requestData))
                        "No description provided")) ;;
       mret (Some request)) s
  | _, _ => (Return None, s)
  end.

Definition handleModificationRequest (request : ModificationRequest) (s : App) : App :=
  match agents (agentManager s) !! from_agent_id request,
        agents (agentManager s) !! to_agent_id request with
  | Some fromAgent, Some toAgent =>
      addSystemMessage
        (name fromAgent +:+ " is requesting " +:+ name toAgent
         +:+ " to modify their layer: "
         +:+ or_else (Some (rd_description (request_data request)))
               "No description provided") s
  | _, _ => s
  end.

(** [AgentManager.clearAgentLayer] *)
Definition agent_clearAgentLayer (agentId : string) : JS App () :=
  clearAgentLayer agentId ;; send_if_present (clear_agent_layer agentId).

(** [removeAgent]; [confirmed] is the answer to the [confirm] dialog. *)
Definition removeAgent (agentId : string) (confirmed : bool) : JS App () :=
  if confirmed
  then
    send_if_present (remove_agent agentId) ;;
    modify (λ s, with_elements s (remove_element ("agent-" +:+ agentId) (elements s))) ;;
    modify (λ s, with_agents s (delete agentId (agents (agentManager s)))) ;;
    clearAgentLayer agentId
  else mret ().

(** ** websocket.js: inbound messages *)

Definition conversation_handleCanvasAction (action : CanvasAction) (s : App) : App :=
  let actionDescription :=
    if bool_decide (action_type action = "draw") then "drew on the canvas"
    else if bool_decide (action_type action = "mermaid") then "added a mermaid diagram"
    else if bool_decide (action_type action = "clear") then "cleared the canvas"
    else "performed action: " +:+ action_type action in
  addSystemMessage (agent_label (action_agent_id action) s +:+ " " +:+ actionDescription) s.

Definition handleCanvasAction (action : CanvasAction) (now : Z) : JS App () :=
  let agentId := action_agent_id action in
  (if bool_decide (action_type action = "draw") then
     match action_data action ≫= d_path with
     | Some path =>
         modify (λ s, with_canvasManager s
                        (addAgentDrawing agentId path now (canvasManager s)))
     | None => mret ()
     end
   else if bool_decide (action_type action = "mermaid") then
     match action_data action with
     | Some d =>
         if truthy (default EmptyString (d_content d))
         then modify (λ s, (addMermaidDiagram (default EmptyString (d_content d))
                              (default {| x := 50; y := 50 |} (d_position d))
                              agentId now s).2)
         else mret ()
     | None => mret ()
     end
   else if bool_decide (action_type action = "clear") then clearCanvas
   else if bool_decide (action_type action = "layer_cleared") then
     match action_data action ≫= d_cleared_agent_id with
     | Some cleared =>
         if truthy cleared
         then modify (λ s, addSystemMessage
                             (agent_label (Some cleared) s
                              +:+ "'s layer has been cleared.") s)
         else mret ()
     | None => mret ()
     end
   else mret ()) ;;
  modify (conversation_handleCanvasAction action).

Definition handleAgentResponses (query : string) (responses : list (string * string))
    (s : App) : App :=
  foldl (λ s r, addAgentMessage r.1 r.2 s)
    (addSystemMessage
       ("Received responses from " +:+ pretty (length responses)
        +:+ " agents for query: " +:+ quote_mark +:+ query +:+ quote_mark) s)
    responses.

Definition handleMessage (message : Message) (now : Z) : JS App () :=
  match message with
  | agent_added a =>
      modify (addAgentToUI a) ;;
      modify (addSystemMessage
                ("Agent " +:+ quote_mark +:+ name a +:+ quote_mark +:+ " has been added."))
  | agent_updated a =>
      modify (updateAgentInUI a) ;;
      modify (addSystemMessage
                ("Agent " +:+ quote_mark +:+ name a +:+ quote_mark +:+ " has been updated."))
  | agent_removed i =>
      modify (λ s, with_elements s (remove_element ("agent-" +:+ i) (elements s))) ;;
      modify (λ s, with_agents s (delete i (agents (agentManager s)))) ;;
      modify (addSystemMessage "An agent has been removed.")
  | canvas_action action => handleCanvasAction action now
  | modification_request action =>
      match action_data action ≫= d_request with
      | Some request => modify (handleModificationRequest request)
      | None => throw "TypeError"
      end
  | agent_responses query responses => modify (handleAgentResponses query responses)
  | layer_cleared i =>
      clearAgentLayer i ;;
      modify (λ s, addSystemMessage
                     (agent_label (Some i) s +:+ "'s layer has been cleared.") s)
  | success _ => mret ()
  | error text => modify (addSystemMessage ("Error: " +:+ text))
  | _ => mret ()
  end.

(** [ws.onmessage], for a frame that parses to [message]. *)
Definition onmessage (message : Message) (now : Z) : JS App () :=
  try_catch (handleMessage message now) (λ _, mret ()).

(** ** Sessions *)

(** What the page does to the layers, one user or channel action at a
    time.  A local stroke is the gesture Fabric reports as [mouse:down],
    [path:created], [mouse:up], the new path being on the canvas when
    [path:created] fires. *)
Inductive LayerOperation :=
| LocalDraw (e : PointerEvent) (path : FabricObject) (now : Z)
| DrawingMode (agentId color : string)
| RemoteDraw (agentId : string) (path : FabricObject) (now : Z)
| Diagram (content : string) (position : Position) (agentId : string) (now : Z)
| ClearLayer (agentId : string)
| ClearAll.

Definition on_canvasManager (f : CanvasManager → CanvasManager) : JS App () :=
  modify (λ s, with_canvasManager s (f (canvasManager s))).

Definition perform (op : LayerOperation) : JS App () :=
  match op with
  | LocalDraw e path now =>
      on_canvasManager (λ c, (mouse_down e c).1) ;;
      on_canvasManager (λ c, with_canvas c (canvas c ++ [path])) ;;
      on_path_created path now ;;
      on_canvasManager mouse_up
  | DrawingMode agentId color => on_canvasManager (setAgentDrawingMode agentId color)
  | RemoteDraw agentId path now => on_canvasManager (addAgentDrawing (Some agentId) path now)
  | Diagram content position agentId now =>
      modify (λ s, (addMermaidDiagram content position (Some agentId) now s).2)
  | ClearLayer agentId => clearAgentLayer agentId
  | ClearAll => clearCanvas
  end.

(** Everything else the model can do to the page. *)
Inductive Operation :=
| OnLayers (op : LayerOperation)
| PointerDown (e : PointerEvent)
| PointerUp
| PathCreated (path : FabricObject) (now : Z)
| Undo
| RemoveDiagram (diagramId : string)
| AgentClearLayer (agentId : string)
| RemoveAgent (agentId : string) (confirmed : bool)
| Request (fromAgentId toAgentId : string) (requestData : RequestData) (now : Z)
| Receive (message : Message) (now : Z).

Definition operate (op : Operation) : JS App () :=
  match op with
  | OnLayers op => perform op
  | PointerDown e => on_canvasManager (λ c, (mouse_down e c).1)
  | PointerUp => on_canvasManager mouse_up
  | PathCreated path now => on_path_created path now
  | Undo => on_canvasManager undoLastAction
  | RemoveDiagram diagramId => modify (removeMermaidDiagram diagramId)
  | AgentClearLayer agentId => agent_clearAgentLayer agentId
  | RemoveAgent agentId confirmed => removeAgent agentId confirmed
  | Request fromAgentId toAgentId requestData now =>
      requestModification fromAgentId toAgentId requestData now ;; mret ()
  | Receive message now => onmessage message now
  end.

(** The state after a sequence of actions; an action that throws leaves
    what it had written, as an uncaught exception of a listener does. *)
Definition session {Op} (step : Op → JS App ()) (ops : list Op) (s : App) : App :=
  foldl (λ s op, (step op s).2) s ops.

(** A page whose canvas manager has just been constructed. *)
Definition fresh_canvas (s : App) : App := with_canvasManager s CanvasManager_new.

(** Connection events other than [open] and [message]. *)
Inductive ConnectionEvent :=
| TimerConnect (thrown : bool)
| SocketError
| SocketClose (wasClean : bool).

Definition connection_step (w : WebSocketManager) (e : ConnectionEvent) : WebSocketManager :=
  match e with
  | TimerConnect thrown => connect thrown w
  | SocketError => onerror w
  | SocketClose wasClean => onclose wasClean w
  end.

(** Does the event reach [handleConnectionError]? *)
Definition is_failure (e : ConnectionEvent) : bool :=
  match e with
  | TimerConnect thrown => thrown
  | SocketError => true
  | SocketClose wasClean => negb wasClean
  end.

Definition failures (es : list ConnectionEvent) : nat := length (filter is_failure es).

Definition is_close (e : ConnectionEvent) : bool :=
  match e with SocketClose _ => true | _ => false end.

(** ** The statements of the specification *)

(** The delays of the first [attempts] reconnect timers. *)
Definition reconnect_delays (attempts : nat) : list nat :=
  (λ attempt, 1000 * attempt) <$> seq 1 attempts.

(** What the status element shows when the reconnection gives up. *)
Definition max_attempts_status : StatusElement :=
  {| textContent := "Max reconnection attempts reached";
     className := "status-offline" |}.

(** The messages handed to the socket so far. *)
Definition frames (s : App) : list Message := from_option wire [] (websocketManager s).

(** Would the channel take [message] now? *)
Definition accepts (message : Message) (w : WebSocketManager) : bool :=
  isConnected w && bool_decide (ws w = Some OPEN)
  && bool_decide (is_Some (JSON_stringify message)).

Definition channel_accepts (message : Message) (s : App) : bool :=
  from_option (accepts message) false (websocketManager s).

Definition handed (message : Message) (w : WebSocketManager) : WebSocketManager :=
  {| ws := ws w; reconnectAttempts := reconnectAttempts w;
     maxReconnectAttempts := maxReconnectAttempts w;
     reconnectDelay := reconnectDelay w; isConnected := isConnected w;
     status := status w; scheduled := scheduled w; wire := wire w ++ [message] |}.

(** The state of the manager after [sendMessage]. *)
Definition deliver (message : Message) (w : WebSocketManager) : WebSocketManager :=
  if accepts message w then handed message w else w.

Definition layer_cleared_action (agentId : string) : Message :=
  canvas_action
    {| action_agent_id := Some "system"; action_type := "layer_cleared";
       action_data := Some {| d_path := None; d_color := None; d_width := None;
                              d_content := None; d_position := None;
                              d_cleared_agent_id := Some agentId;
                              d_request := None |} |}.

Definition modification_request_of (fromAgentId toAgentId : string)
    (requestData : RequestData) (now : Z) : ModificationRequest :=
  {| from_agent_id := fromAgentId; to_agent_id := toAgentId;
     request_type := "modification"; request_data := requestData;
     request_timestamp := now |}.

Definition modification_action (request : ModificationRequest) : Message :=
  canvas_action
    {| action_agent_id := Some (from_agent_id request);
       action_type := "modification_request";
       action_data := Some {| d_path := None; d_color := None; d_width := None;
                              d_content := None; d_position := None;
                              d_cleared_agent_id := None;
                              d_request := Some request |} |}.

(** A map holds a key once, and here no layer is keyed [null]. *)
Definition layers_wf (ls : list (option string * list LayerObject)) : Prop :=
  NoDup ls.*1 ∧ None ∉ ls.*1.

(** The count of the specification: the objects added under [owner]
    that no later clear has removed. *)
Definition adds_under (owner : string) (op : LayerOperation) : bool :=
  match op with
  | LocalDraw _ _ _ => bool_decide (owner = "human")
  | RemoteDraw agentId _ _ => bool_decide (owner = agentId)
  | Diagram _ _ agentId _ => bool_decide (owner = agentId)
  | _ => false
  end.

Definition removes_from (owner : string) (op : LayerOperation) : bool :=
  match op with
  | ClearLayer agentId => bool_decide (owner = agentId)
  | ClearAll => true
  | _ => false
  end.

Definition count_step (owner : string) (n : nat) (op : LayerOperation) : nat :=
  if removes_from owner op then 0
  else if adds_under owner op then S n else n.

Definition live_objects (owner : string) (ops : list LayerOperation) : nat :=
  foldl (count_step owner) 0 ops.

(** Whether [owner] has a layer entry: the human has one from the start;
    an entry appears with the first object or with the drawing mode, and
    only the human entry survives a full clear. *)
Definition entry_step (owner : string) (b : bool) (op : LayerOperation) : bool :=
  match op with
  | ClearAll => bool_decide (owner = "human")
  | DrawingMode agentId _ => b || bool_decide (owner = agentId)
  | _ => b || adds_under owner op
  end.

Definition has_layer (owner : string) (ops : list LayerOperation) : bool :=
  foldl (entry_step owner) (bool_decide (owner = "human")) ops.

(** What an action does to the layers. *)
Definition layer_effect (op : LayerOperation)
    (ls : list (option string * list LayerObject)) : list (option string * list LayerObject) :=
  match op with
  | LocalDraw _ path now =>
      push_layer (Some "human")
        (FabricObj (set_data path {| agent := Some "human"; timestamp := now |})) ls
  | DrawingMode agentId _ =>
      if Map_has (Some agentId) ls then ls else Map_set (Some agentId) [] ls
  | RemoteDraw agentId path now =>
      push_layer (Some agentId)
        (FabricObj (set_data path {| agent := Some agentId; timestamp := now |})) ls
  | Diagram content position agentId now =>
      push_layer (Some agentId) (MermaidObj ("mermaid-" +:+ pretty now) content position) ls
  | ClearLayer agentId =>
      if Map_has (Some agentId) ls then Map_set (Some agentId) [] ls else ls
  | ClearAll => [(Some "human", [])]
  end.

(** A property of the page that a method keeps. *)
Definition preserves {A} (P : App → Prop) (m : JS App A) : Prop :=
  ∀ s, P s → P (m s).2.

Definition has_human_layer (s : App) : Prop :=
  Map_has (Some "human") (layers (canvasManager s)) = true.

(** ** websocket.js: closing the connection *)

(** [ws.close()]: a socket that is connecting or open starts closing. *)
Definition socket_close (r : ReadyState) : ReadyState :=
  match r with
  | CONNECTING | OPEN => CLOSING
  | CLOSING => CLOSING
  | CLOSED => CLOSED
  end.

Definition disconnect (w : WebSocketManager) : WebSocketManager :=
  let w := match ws w with
           | Some r => socket_becomes (socket_close r) w
           | None => w
           end in
  updateConnectionStatus false None (set_isConnected false w).

(** ** conversation.js: the rest of the conversation manager *)

Definition addUserMessage (content : string) (s : App) : App :=
  with_conversationManager s
    (addMessage {| m_type := "user"; m_sender := "You"; m_content := content;
                   m_agentId := None; m_agentColor := None |}
       (conversationManager s)).

(** [clearConversation]; [confirmed] is the answer to the [confirm]
    dialog. *)
Definition clearConversation (confirmed : bool) (s : App) : App :=
  if confirmed
  then addSystemMessage "Conversation history cleared."
         (with_conversationManager s {| messages := [] |})
  else s.

Record Stats := {
  st_total : nat;
  st_user : nat;
  st_agent : nat;
  st_system : nat
}.

Definition count_type (t : string) (l : list ConvMessage) : nat :=
  length (filter (λ m, m_type m = t) l).

Definition getStats (c : ConversationManager) : Stats :=
  {| st_total := length (messages c);
     st_user := count_type "user" (messages c);
     st_agent := count_type "agent" (messages c);
     st_system := count_type "system" (messages c) |}.

(** The three ways a message enters the log. *)
Inductive LogAction :=
| SayUser (content : string)
| SayAgent (agentId content : string)
| SaySystem (content : string).

Definition log_action (s : App) (a : LogAction) : App :=
  match a with
  | SayUser content => addUserMessage content s
  | SayAgent agentId content => addAgentMessage agentId content s
  | SaySystem content => addSystemMessage content s
  end.

(** [String.prototype.trim] *)
Variable String_trim : string → string.

(** [sendUserMessage]; [value] is what the message field holds.  The
    field itself, which is emptied, is not part of the state. *)
Definition sendUserMessage (value : string) : JS App () :=
  let message := String_trim value in
  if truthy message
  then modify (addUserMessage message) ;; send_if_present (query_agents message)
  else mret ().

(** [sendQueryToAgents]; [value] is what the query field holds. *)
Definition sendQueryToAgents (value : string) : JS App () :=
  let query := String_trim value in
  if truthy query
  then
    modify (addSystemMessage
              ("Query sent to all agents: " +:+ quote_mark +:+ query +:+ quote_mark)) ;;
    send_if_present (query_agents query)
  else mret ().

(** ** conversation.js: the rest of the agent manager *)

Definition set_is_active (a : Agent) (b : bool) : Agent :=
  {| agent_id := agent_id a; name := name a; description := description a;
     color := color a; tools := tools a; server_url := server_url a;
     is_active := b |}.

(** [toggleAgentStatus]: the flag is flipped on the registered object
    itself, which [updateAgentInUI] then stores under its own id. *)
Definition toggleAgentStatus (agentId : string) : JS App () := λ s,
  match agents (agentManager s) !! agentId with
  | Some found =>
      let toggled := set_is_active found (negb (is_active found)) in
      (modify (λ s, with_agents s (<[agentId := toggled]> (agents (agentManager s)))) ;;
       modify (updateAgentInUI toggled) ;;
       send_if_present (update_agent toggled)) s
  | None => (Return (), s)
  end.

(** [getActiveAgents], in the order of the keys. *)
Definition getActiveAgents (s : App) : list Agent :=
  filter (λ a, is_active a = true) (map_to_list (agents (agentManager s))).*2.

(** [showModificationRequestModal]: the agents the form offers as the
    requesting agent; no form is shown for a target that is not
    registered. *)
Definition showModificationRequestModal (targetAgentId : string) (s : App)
    : option (list Agent) :=
  match agents (agentManager s) !! targetAgentId with
  | Some targetAgent =>
      Some (filter (λ a, agent_id a ≠ targetAgentId) (getActiveAgents s))
  | None => None
  end.

(** The [submit] listener of the form, for the requesting agent chosen
    among the options and the two fields filled in. *)
Definition submit_modification_request (targetAgentId : string) (requesting : Agent)
    (description type_ : string) (now : Z) : JS App (option ModificationRequest) :=
  requestModification (agent_id requesting) targetAgentId
    {| rd_description := description; rd_type := type_; rd_timestamp := now |} now.

(** ** The application object *)

Record AppStats := {
  stats_agents : nat;
  stats_activeAgents : nat;
  stats_canvasLayers : nat;
  stats_conversationMessages : nat;
  stats_connectionStatus : bool
}.

(** [MainApp.getStats] *)
Definition app_getStats (s : App) : AppStats :=
  {| stats_agents := size (agents (agentManager s));
     stats_activeAgents := length (getActiveAgents s);
     stats_canvasLayers := length (layers (canvasManager s));
     stats_conversationMessages := length (messages (conversationManager s));
     stats_connectionStatus := from_option isConnected false (websocketManager s) |}.

(** ** The statements of the other properties *)

(** The last [n] elements of a list. *)
Definition most_recent {A} (n : nat) (l : list A) : list A := drop (length l - n) l.

(** A log entry made by one of the three adders. *)
Definition typed (m : ConvMessage) : Prop :=
  m_type m = "user" ∨ m_type m = "agent" ∨ m_type m = "system".

(** The log entry [addAgentMessage] makes. *)
Definition agent_message (s : App) (response : string * string) : ConvMessage :=
  {| m_type := "agent";
     m_sender := agent_label (Some response.1) s;
     m_content := response.2;
     m_agentId := Some response.1;
     m_agentColor := Some (from_option color "#666" (getAgentById (Some response.1) s)) |}.

(** The log entry [addSystemMessage] makes. *)
Definition system_message (content : string) : ConvMessage :=
  {| m_type := "system"; m_sender := "System"; m_content := content;
     m_agentId := None; m_agentColor := None |}.

(** Every agent of the registry is stored under its own id. *)
Definition registry_wf (s : App) : Prop :=
  ∀ k a, agents (agentManager s) !! k = Some a → agent_id a = k.

(** The undo stack is within its bound. *)
Definition undo_bounded (s : App) : Prop :=
  length (undoStack (canvasManager s)) ≤ maxUndoSteps.

(** The log is within its bound and holds messages of the three kinds. *)
Definition log_ok (c : ConversationManager) : Prop :=
  length (messages c) ≤ maxMessages ∧ Forall typed (messages c).

Definition clear_action : Message :=
  canvas_action
    {| action_agent_id := Some "system"; action_type := "clear";
       action_data := Some no_data |}.

(** What [message] adds to the frames when it is handed to the channel
    of [s]. *)
Definition sent_on (s : App) (message : Message) : list Message :=
  if channel_accepts message s then [message] else [].

(** ** A page to run the code on *)

(** A serializer that takes every message. *)
Definition stringify_all (message : Message) : option string := Some "{}".

Definition status_connecting : StatusElement :=
  {| textContent := "Connecting..."; className := "status-offline" |}.

(** The manager once its first socket has opened. *)
Definition open_channel : WebSocketManager :=
  onopen (connect false (WebSocketManager_new status_connecting)).

(** A page right after its scripts ran: the human layer only, no agent,
    an open channel. *)
Definition page : App :=
  {| canvasManager := CanvasManager_new;
     agentManager := {| agents := ∅; activeAgent := None |};
     conversationManager := {| messages := [] |};
     websocketManager := Some open_channel;
     elements := [] |}.

Definition blue_path : FabricObject :=
  {| oid := 1; type := "path"; stroke := "#3b82f6"; strokeWidth := 5; data := None |}.

Definition agent_a : Agent :=
  {| agent_id := "a"; name := "A"; description := "draws"; color := "#3b82f6";
     tools := []; server_url := "http://localhost:12001"; is_active := true |}.

Definition remove_request : RequestData :=
  {| rd_description := "remove the circle"; rd_type := "remove"; rd_timestamp := 7 |}.

(** The page after agent ["agent-1"] drew [blue_path] at time 1. *)
Definition page_with_drawing : App :=
  with_canvasManager page (addAgentDrawing (Some "agent-1") blue_path 1 CanvasManager_new).

(** The drawn object, as the canvas holds it. *)
Definition drawn_path : FabricObject :=
  set_data blue_path {| agent := Some "agent-1"; timestamp := 1 |}.


(** ** More pages and inputs *)

(** A manager that has used up its five reconnect attempts. *)
Definition exhausted_channel : WebSocketManager :=
  foldl connection_step open_channel
    [SocketClose false;
     TimerConnect false; SocketError; SocketClose false;
     TimerConnect false; SocketError; SocketClose false].

Definition hello : ConvMessage :=
  {| m_type := "user"; m_sender := "You"; m_content := "hello";
     m_agentId := None; m_agentColor := None |}.

Definition welcome : ConvMessage := system_message "Welcome".

Definition draw_by_agent_1 : CanvasAction :=
  {| action_agent_id := Some "agent-1"; action_type := "draw";
     action_data := Some {| d_path := Some blue_path; d_color := Some "#3b82f6";
                            d_width := Some 5%Z; d_content := None; d_position := None;
                            d_cleared_agent_id := None; d_request := None |} |}.

(** The page with [agent_a] registered. *)
Definition page_with_agent : App :=
  with_elements (with_agents page (<["a" := agent_a]> ∅)) ["agent-a"].

Definition agent_b : Agent :=
  {| agent_id := "b"; name := "B"; description := "reviews"; color := "#10b981";
     tools := []; server_url := "http://localhost:12002"; is_active := true |}.

(** The page with [agent_a] and [agent_b] registered. *)
Definition page_with_agents : App :=
  with_elements (with_agents page (<["b" := agent_b]> (<["a" := agent_a]> ∅)))
    ["agent-a"; "agent-b"].

(** * Properties *)

(** ** The map *)

Section JsMapFacts.
Context {K V : Type} `{EqDecision K}.
Implicit Types (k : K) (v : V) (m : list (K * V)).

Lemma Map_get_set_eq k v m : Map_get k (Map_set k v m) = Some v.
Proof.
  induction m as [|[k' v'] m IH]; simpl.
  - by rewrite decide_True.
  - destruct (decide (k = k')) as [->|Hne]; simpl.
    + by rewrite decide_True.
    + by rewrite decide_False.
Qed.

Lemma Map_get_set_ne k k' v m : k ≠ k' → Map_get k' (Map_set k v m) = Map_get k' m.
Proof.
  intros Hne. induction m as [|[k0 v0] m IH]; simpl.
  - by rewrite decide_False.
  - destruct (decide (k = k0)) as [->|Hk]; simpl.
    + by rewrite !decide_False.
    + destruct (decide (k' = k0)); [done | apply IH].
Qed.

Lemma Map_get_set k k' v m :
  Map_get k' (Map_set k v m) = if decide (k = k') then Some v else Map_get k' m.
Proof.
  destruct (decide (k = k')) as [->|Hne];
    [apply Map_get_set_eq | by apply Map_get_set_ne].
Qed.

Lemma Map_has_set k k' v m :
  Map_has k' (Map_set k v m) = bool_decide (k = k') || Map_has k' m.
Proof.
  unfold Map_has. rewrite Map_get_set.
  destruct (decide (k = k')) as [->|Hne].
  - by rewrite bool_decide_eq_true_2.
  - by rewrite bool_decide_eq_false_2.
Qed.

Lemma Map_set_set k v v' m : Map_set k v (Map_set k v' m) = Map_set k v m.
Proof.
  induction m as [|[k0 v0] m IH]; simpl.
  - by rewrite decide_True.
  - destruct (decide (k = k0)) as [->|Hk]; simpl.
    + by rewrite decide_True.
    + rewrite decide_False by done. by rewrite IH.
Qed.

Lemma Map_set_same k v m : Map_get k m = Some v → Map_set k v m = m.
Proof.
  induction m as [|[k0 v0] m IH]; simpl; [done|].
  destruct (decide (k = k0)) as [->|Hk].
  - by intros [= ->].
  - intros Hget. by rewrite IH.
Qed.

Lemma Map_get_None k m : k ∉ m.*1 → Map_get k m = None.
Proof.
  induction m as [|[k0 v0] m IH]; simpl; [done|].
  intros Hnot. apply not_elem_of_cons in Hnot as [Hne Hrest].
  rewrite decide_False by done. by apply IH.
Qed.

Lemma Map_set_keys k v m :
  (Map_set k v m).*1 = if Map_has k m then m.*1 else m.*1 ++ [k].
Proof.
  unfold Map_has. induction m as [|[k0 v0] m IH]; csimpl; [done|].
  destruct (decide (k = k0)) as [->|Hk]; csimpl; [done|].
  rewrite IH. by destruct (Map_get k m).
Qed.

Lemma Map_has_keys k m : Map_has k m = true ↔ k ∈ m.*1.
Proof.
  unfold Map_has. induction m as [|[k0 v0] m IH]; simpl.
  - split; [done | by intros ?%elem_of_nil].
  - destruct (decide (k = k0)) as [->|Hk].
    + split; [intros _; left | done].
    + rewrite IH. split; [by right | intros Hin].
      by apply elem_of_cons in Hin as [? | ?].
Qed.

End JsMapFacts.

(** ** The channel *)

Ltac unfold_js :=
  unfold mbind, JS_bind, mret, JS_ret, modify, throw, try_catch, on_canvasManager in *.

Lemma sendMessage_eq message w :
  sendMessage message w = (Return (accepts message w), deliver message w).
Proof.
  unfold sendMessage, deliver, accepts, socket_open, socket_send, handed.
  unfold_js.
  destruct (isConnected w); simpl; [|done].
  case_bool_decide; simpl; [|done].
  by destruct (JSON_stringify message) as [frame|].
Qed.

Lemma send_if_present_eq message s :
  send_if_present message s
  = (Return (), with_websocketManager s (deliver message <$> websocketManager s)).
Proof.
  unfold send_if_present. destruct (websocketManager s) as [w|] eqn:Hw; simpl.
  - by rewrite sendMessage_eq.
  - destruct s; simpl in *; by subst.
Qed.

Lemma wire_deliver message w :
  wire (deliver message w) = wire w ++ (if accepts message w then [message] else []).
Proof. unfold deliver. destruct (accepts message w); simpl; by rewrite ?app_nil_r. Qed.

Lemma frames_delivered message s :
  frames (with_websocketManager s (deliver message <$> websocketManager s))
  = frames s ++ (if channel_accepts message s then [message] else []).
Proof.
  unfold frames, channel_accepts. simpl.
  destruct (websocketManager s) as [w|]; simpl; [apply wire_deliver | done].
Qed.

(** C10. [sendMessage] never throws.  It returns [true] exactly when the
    manager is connected, the socket is there and [OPEN], and the message
    was serialized and handed to the socket; otherwise it returns [false]
    and the manager is as it was. *)
Theorem sendMessage_returns message w :
  ∃ sent : bool,
    (sendMessage message w).1 = Return sent
    ∧ (sent = true ↔
         isConnected w = true ∧ ws w = Some OPEN ∧ is_Some (JSON_stringify message))
    ∧ (sendMessage message w).2 = if sent then handed message w else w.
Proof.
  exists (accepts message w). rewrite sendMessage_eq. simpl.
  split; [done|]. split; [|done].
  unfold accepts. rewrite !andb_true_iff, !bool_decide_eq_true. tauto.
Qed.

(** ** Reconnection *)

#[local] Arguments Nat.mul : simpl never.

Lemma handleConnectionError_spec w n :
  maxReconnectAttempts w = 5 → reconnectDelay w = 1000 →
  reconnectAttempts w = n `min` 5 →
  let w' := handleConnectionError w in
  maxReconnectAttempts w' = 5 ∧ reconnectDelay w' = 1000
  ∧ isConnected w' = isConnected w
  ∧ reconnectAttempts w' = S n `min` 5
  ∧ scheduled w' = scheduled w ++ (if bool_decide (n < 5) then [1000 * S n] else []).
Proof.
  intros Hmax Hdelay Hatt. unfold handleConnectionError. rewrite Hmax, Hatt.
  case_bool_decide as Hlt; simpl; rewrite ?Hdelay.
  - rewrite bool_decide_eq_true_2 by lia.
    replace (n `min` 5) with n by lia. repeat split; try done; lia.
  - rewrite bool_decide_eq_false_2 by lia. rewrite app_nil_r.
    repeat split; try done; lia.
Qed.

Lemma connection_step_spec w e n :
  maxReconnectAttempts w = 5 → reconnectDelay w = 1000 →
  reconnectAttempts w = n `min` 5 →
  let n' := if is_failure e then S n else n in
  let w' := connection_step w e in
  maxReconnectAttempts w' = 5 ∧ reconnectDelay w' = 1000
  ∧ isConnected w' = isConnected w && negb (is_close e)
  ∧ reconnectAttempts w' = n' `min` 5
  ∧ scheduled w'
    = scheduled w ++ (if is_failure e && bool_decide (n < 5) then [1000 * S n] else []).
Proof.
  intros Hmax Hdelay Hatt.
  destruct e as [[]| |[]]; simpl; unfold onerror;
    rewrite ?andb_true_r, ?andb_false_r;
    try (by rewrite app_nil_r);
    try (by apply handleConnectionError_spec).
  pose proof (handleConnectionError_spec
                (updateConnectionStatus false None
                   (set_isConnected false (socket_becomes CLOSED w))) n
                Hmax Hdelay Hatt) as H.
  simpl in H. exact H.
Qed.

Lemma reconnect_delays_S n : reconnect_delays (S n) = reconnect_delays n ++ [1000 * S n].
Proof. unfold reconnect_delays. by rewrite seq_S, fmap_app. Qed.

Lemma failures_snoc es e :
  failures (es ++ [e]) = if is_failure e then S (failures es) else failures es.
Proof.
  unfold failures. rewrite filter_app, length_app.
  rewrite filter_cons, filter_nil. destruct (is_failure e); simpl; lia.
Qed.

Lemma reconnect_invariant w0 es :
  maxReconnectAttempts w0 = 5 → reconnectDelay w0 = 1000 →
  reconnectAttempts w0 = 0 →
  let w := foldl connection_step w0 es in
  maxReconnectAttempts w = 5 ∧ reconnectDelay w = 1000
  ∧ isConnected w = isConnected w0 && negb (existsb is_close es)
  ∧ reconnectAttempts w = failures es `min` 5
  ∧ scheduled w = scheduled w0 ++ reconnect_delays (failures es `min` 5).
Proof.
  intros Hmax Hdelay Hatt. induction es as [|e es IH] using rev_ind; simpl.
  - unfold reconnect_delays. simpl. by rewrite app_nil_r, andb_true_r.
  - rewrite foldl_app. simpl. destruct IH as (IH1 & IH2 & IH3 & IH4 & IH5).
    pose proof (connection_step_spec _ e _ IH1 IH2 IH4) as H. simpl in H.
    destruct H as (H1 & H2 & H3 & H4 & H5).
    rewrite failures_snoc. split; [done|]. split; [done|].
    split; [|split; [done|]].
    + rewrite H3, IH3, existsb_app. simpl.
      by destruct (isConnected w0), (existsb is_close es), (is_close e).
    + rewrite H5, IH5, <- app_assoc. f_equal.
      destruct (is_failure e); cbn [andb]; [|by rewrite app_nil_r].
      case_bool_decide.
      * replace (S (failures es) `min` 5) with (S (failures es)) by lia.
        replace (failures es `min` 5) with (failures es) by lia.
        by rewrite reconnect_delays_S.
      * rewrite app_nil_r. f_equal. lia.
Qed.

Lemma handleConnectionError_at_ceiling w :
  maxReconnectAttempts w = 5 → reconnectAttempts w = 5 →
  status (handleConnectionError w) = max_attempts_status.
Proof.
  intros Hmax Hatt. unfold handleConnectionError. rewrite Hmax, Hatt.
  by rewrite bool_decide_eq_false_2 by lia.
Qed.

(** C5. Take any run of connection failures (the constructor of the
    socket throwing, [error] events, [close] events) that starts with the
    counter at zero.  The [k]-th reconnect timer is set with the delay
    [k * 1000], and at most five are set.  The manager is disconnected
    if it was so at the start or a [close] event came.  Once five timers
    have been set, no further failure sets another, the manager stays
    disconnected, and each further failure shows the user that the
    maximum was reached. *)
Theorem reconnect_bound (w0 : WebSocketManager) (es : list ConnectionEvent) :
  maxReconnectAttempts w0 = 5 → reconnectDelay w0 = 1000 →
  reconnectAttempts w0 = 0 →
  let w := foldl connection_step w0 es in
  reconnectAttempts w = failures es `min` 5
  ∧ scheduled w = scheduled w0 ++ reconnect_delays (failures es `min` 5)
  ∧ isConnected w = isConnected w0 && negb (existsb is_close es)
  ∧ (5 ≤ failures es → ∀ more e,
       scheduled (foldl connection_step w more) = scheduled w
       ∧ reconnectAttempts (foldl connection_step w more) = 5
       ∧ (isConnected w = false → isConnected (foldl connection_step w more) = false)
       ∧ (is_failure e = true →
          status (connection_step (foldl connection_step w more) e)
          = max_attempts_status)).
Proof.
  intros Hmax Hdelay Hatt.
  destruct (reconnect_invariant w0 es Hmax Hdelay Hatt) as (H1 & H2 & H3 & H4 & H5).
  simpl. split; [done|]. split; [done|]. split; [done|].
  intros Hfive more e.
  destruct (reconnect_invariant w0 (es ++ more) Hmax Hdelay Hatt)
    as (M1 & M2 & M3 & M4 & M5).
  simpl in *. rewrite foldl_app in M1, M2, M3, M4, M5.
  assert (failures (es ++ more) `min` 5 = 5 ∧ failures es `min` 5 = 5) as [Hm Hn].
  { unfold failures in *. rewrite filter_app, length_app. lia. }
  rewrite Hm in M4, M5. rewrite Hn in H5.
  split; [by rewrite M5, H5|]. split; [done|]. split.
  - intros Hoff. rewrite M3, existsb_app. rewrite H3 in Hoff.
    destruct (isConnected w0), (existsb is_close es); simplify_eq/=; done.
  - intros Hfail. destruct e as [[]| |[]]; try done; simpl; unfold onerror;
      by apply handleConnectionError_at_ceiling.
Qed.

(** ** The canvas manager and the channel *)

Lemma sendCanvasAction_eq action s :
  sendCanvasAction action s
  = (Return (),
     with_websocketManager s (deliver (canvas_action action) <$> websocketManager s)).
Proof. apply send_if_present_eq. Qed.

Lemma clearAgentLayer_returns agentId s : (clearAgentLayer agentId s).1 = Return ().
Proof.
  unfold clearAgentLayer.
  destruct (Map_has _ _); [by rewrite sendCanvasAction_eq | done].
Qed.

Lemma clearAgentLayer_layers agentId s :
  layers (canvasManager (clearAgentLayer agentId s).2)
  = if Map_has (Some agentId) (layers (canvasManager s))
    then Map_set (Some agentId) [] (layers (canvasManager s))
    else layers (canvasManager s).
Proof.
  unfold clearAgentLayer.
  destruct (Map_has _ _); [by rewrite sendCanvasAction_eq | done].
Qed.

Lemma clearAgentLayer_frames agentId s :
  frames (clearAgentLayer agentId s).2
  = frames s ++ (if Map_has (Some agentId) (layers (canvasManager s))
                      && channel_accepts (layer_cleared_action agentId) s
                 then [layer_cleared_action agentId] else []).
Proof.
  unfold clearAgentLayer.
  destruct (Map_has _ _); simpl; [|by rewrite app_nil_r].
  rewrite sendCanvasAction_eq. cbn [snd]. by rewrite frames_delivered.
Qed.

(** C2, as the code has it.  A [layer_cleared] message for [agentId]
    never throws.  If the agent has a layer, the layer becomes empty, the
    other layers stay, and one [layer_cleared] action is handed to the
    channel, which sends it when it is open; if the agent has no layer,
    the layers stay as they are and nothing is sent.  An inbound
    [clear_agent_layer] message has no case in the handler and changes
    nothing. *)
Theorem layer_cleared_message (agentId : string) (now : Z) (s : App) :
  let r := handleMessage (layer_cleared agentId) now s in
  let present := Map_has (Some agentId) (layers (canvasManager s)) in
  r.1 = Return ()
  ∧ layers (canvasManager r.2)
    = (if present then Map_set (Some agentId) [] (layers (canvasManager s))
       else layers (canvasManager s))
  ∧ Map_get (Some agentId) (layers (canvasManager r.2))
    = (if present then Some [] else None)
  ∧ (∀ k, k ≠ Some agentId →
       Map_get k (layers (canvasManager r.2)) = Map_get k (layers (canvasManager s)))
  ∧ frames r.2
    = frames s ++ (if present && channel_accepts (layer_cleared_action agentId) s
                   then [layer_cleared_action agentId] else [])
  ∧ handleMessage (clear_agent_layer agentId) now s = (Return (), s).
Proof.
  simpl. unfold_js.
  pose proof (clearAgentLayer_returns agentId s) as Hret.
  pose proof (clearAgentLayer_layers agentId s) as Hlayers.
  pose proof (clearAgentLayer_frames agentId s) as Hframes.
  destruct (clearAgentLayer agentId s) as [[[]|exn] s'] eqn:Hclear;
    simpl in *; [|done].
  split; [done|]. split; [done|]. rewrite Hlayers.
  split; [|split; [|done]].
  - unfold Map_has.
    destruct (Map_get (Some agentId) (layers (canvasManager s))) eqn:Hget;
      [apply Map_get_set_eq | done].
  - intros k Hk. destruct (Map_has _ _); [by apply Map_get_set_ne | done].
Qed.

(** ** Modification requests *)

Lemma canvas_requestModification_eq fromAgentId toAgentId requestData now s :
  let request := modification_request_of fromAgentId toAgentId requestData now in
  canvas_requestModification fromAgentId toAgentId requestData now s
  = (Return request,
     with_websocketManager s
       (deliver (modification_action request) <$> websocketManager s)).
Proof.
  simpl. unfold canvas_requestModification. unfold_js.
  by rewrite sendCanvasAction_eq.
Qed.

Lemma requestModification_eq fromAgentId toAgentId requestData now s :
  let request := modification_request_of fromAgentId toAgentId requestData now in
  requestModification fromAgentId toAgentId requestData now s
  = match agents (agentManager s) !! fromAgentId,
          agents (agentManager s) !! toAgentId with
    | Some fromAgent, Some toAgent =>
        (Return (Some request),
         addSystemMessage
           (name fromAgent +:+ " has requested a modification from "
            +:+ name toAgent +:+ ": "
            +:+ or_else (Some (rd_description requestData)) "No description provided")
           (with_websocketManager s
              (deliver (modification_action request) <$> websocketManager s)))
    | _, _ => (Return None, s)
    end.
Proof.
  simpl. unfold requestModification.
  destruct (agents (agentManager s) !! fromAgentId) as [fromAgent|]; [|done].
  destruct (agents (agentManager s) !! toAgentId) as [toAgent|]; [|done].
  unfold_js. by rewrite canvas_requestModification_eq.
Qed.

(** C3, as the code has it.  [requestModification] checks that both ids
    name registered agents, and nothing else.  When both are registered it
    returns the request it built and hands one [modification_request]
    action to the channel, which sends it when it is open; otherwise it
    returns [null] and the page is as it was. *)
Theorem requestModification_checks_registration
    (fromAgentId toAgentId : string) (requestData : RequestData) (now : Z) (s : App) :
  let r := requestModification fromAgentId toAgentId requestData now s in
  let request := modification_request_of fromAgentId toAgentId requestData now in
  let registered :=
    is_Some (agents (agentManager s) !! fromAgentId)
    ∧ is_Some (agents (agentManager s) !! toAgentId) in
  (registered →
     r.1 = Return (Some request)
     ∧ frames r.2
       = frames s ++ (if channel_accepts (modification_action request) s
                      then [modification_action request] else []))
  ∧ (¬ registered → r.1 = Return None ∧ r.2 = s).
Proof.
  simpl. rewrite requestModification_eq. split.
  - intros [[fromAgent ->] [toAgent ->]]. simpl. split; [done|].
    apply frames_delivered.
  - intros Hnot.
    destruct (agents (agentManager s) !! fromAgentId) as [fromAgent|]; [|done].
    destruct (agents (agentManager s) !! toAgentId) as [toAgent|]; [|done].
    destruct Hnot. by split.
Qed.

Lemma requestModification_canvasManager fromAgentId toAgentId requestData now s :
  canvasManager (requestModification fromAgentId toAgentId requestData now s).2
  = canvasManager s.
Proof.
  rewrite requestModification_eq.
  destruct (agents (agentManager s) !! fromAgentId) as [fromAgent|];
    [destruct (agents (agentManager s) !! toAgentId) as [toAgent|]|]; done.
Qed.

(** C4. [requestModification], of the agent manager and of the canvas
    manager, leaves the canvas manager as it was, and so every layer with
    its objects in their order, whether the validation passes or not. *)
Theorem requestModification_keeps_layers
    (fromAgentId toAgentId : string) (requestData : RequestData) (now : Z) (s : App) :
  let after := (requestModification fromAgentId toAgentId requestData now s).2 in
  let after_canvas :=
    (canvas_requestModification fromAgentId toAgentId requestData now s).2 in
  layers (canvasManager after) = layers (canvasManager s)
  ∧ canvasManager after = canvasManager s
  ∧ elements after = elements s
  ∧ layers (canvasManager after_canvas) = layers (canvasManager s)
  ∧ canvasManager after_canvas = canvasManager s.
Proof.
  simpl. rewrite requestModification_eq, canvas_requestModification_eq.
  destruct (agents (agentManager s) !! fromAgentId) as [fromAgent|];
    [destruct (agents (agentManager s) !! toAgentId) as [toAgent|]|]; done.
Qed.

(** ** The interaction gate *)

Ltac gate_passes :=
  split; [|done]; split; [done|];
  intros (t' & d' & o' & Ht' & Hd' & Ha' & He' & Ho' & Hh');
  simplify_eq; try done; try congruence.

(** C1, as the code has it.  The [mouse:down] listeners never change the
    layers or the canvas.  The ownership gate rejects the event, stopping
    its propagation and returning [false], exactly when the object under
    the pointer carries a non-empty owner tag, the active owner the gate
    reads differs from that tag, and the active owner is not the human;
    otherwise it lets the event through untouched. *)
Theorem mouse_down_gate (e : PointerEvent) (c : CanvasManager) :
  layers (mouse_down e c).1 = layers c
  ∧ canvas (mouse_down e c).1 = canvas c
  ∧ ((on_mouse_down_gate e c).2 = Some false ↔
       ∃ t d owner,
         target e = Some t ∧ data t = Some d ∧ agent d = Some owner
         ∧ owner ≠ EmptyString
         ∧ currentAgent c ≠ Some owner ∧ currentAgent c ≠ Some "human")
  ∧ ((on_mouse_down_gate e c).2 = Some false →
       propagationStopped (on_mouse_down_gate e c).1 = true)
  ∧ ((on_mouse_down_gate e c).2 ≠ Some false → on_mouse_down_gate e c = (e, None)).
Proof.
  split; [done|]. split; [done|]. unfold on_mouse_down_gate.
  destruct (target e) as [t|] eqn:Ht; simpl; [|gate_passes].
  destruct (data t) as [d|] eqn:Hd; simpl; [|gate_passes].
  destruct (agent d) as [owner|] eqn:Ha; simpl; [|gate_passes].
  unfold truthy. case_bool_decide as Hempty; simpl; [|gate_passes].
  case_bool_decide as Hother; simpl; [|gate_passes].
  case_bool_decide as Hhuman; simpl; [|gate_passes].
  split; [|done]. split; [intros _|done].
  exists t, d, owner. repeat split; done.
Qed.

(** X1. In the dispatch of [mouse:down] the first listener has made the
    human the active owner by the time the gate reads it, so the gate
    lets every event through. *)
Lemma mouse_down_never_rejects (e : PointerEvent) (c : CanvasManager) :
  currentAgent (mouse_down e c).1 = Some "human"
  ∧ (mouse_down e c).2 = (e, None).
Proof.
  split; [done|]. unfold mouse_down, on_mouse_down_gate. simpl.
  destruct (target e) as [t|]; [|done].
  destruct (data t) as [d|]; [|done].
  destruct (from_option truthy false (agent d)); [|done].
  by rewrite andb_false_r.
Qed.

(** ** The layer store *)

Lemma layers_wf_set k objs ls : layers_wf ls → layers_wf (Map_set (Some k) objs ls).
Proof.
  intros [Hdup Hnull]. unfold layers_wf. rewrite Map_set_keys.
  destruct (Map_has (Some k) ls) eqn:Hhas; [done|]. split.
  - apply NoDup_app. split; [done|]. split; [|apply NoDup_singleton].
    intros k' Hin ->%list_elem_of_singleton.
    apply Map_has_keys in Hin. congruence.
  - rewrite elem_of_app, list_elem_of_singleton. by intros [?|?].
Qed.

Lemma layers_wf_push k obj ls : layers_wf ls → layers_wf (push_layer (Some k) obj ls).
Proof.
  intros Hwf. unfold push_layer. apply layers_wf_set.
  destruct (Map_has (Some k) ls); [done | by apply layers_wf_set].
Qed.

Lemma Map_get_push k k' obj ls :
  Map_get k' (push_layer k obj ls)
  = if decide (k = k') then Some (default [] (Map_get k ls) ++ [obj]) else Map_get k' ls.
Proof.
  unfold push_layer, Map_has. rewrite Map_get_set.
  destruct (decide (k = k')) as [->|Hne].
  - destruct (Map_get k' ls) eqn:Hget; [by rewrite Hget|].
    by rewrite Map_get_set_eq.
  - destruct (Map_get k ls); [done | by apply Map_get_set_ne].
Qed.

Lemma Map_has_push k k' obj ls :
  Map_has k' (push_layer k obj ls) = bool_decide (k = k') || Map_has k' ls.
Proof.
  unfold Map_has at 1. rewrite Map_get_push.
  destruct (decide (k = k')) as [->|Hne].
  - by rewrite bool_decide_eq_true_2.
  - by rewrite bool_decide_eq_false_2.
Qed.

Lemma layer_info_fold (ls : list (option string * list LayerObject))
    (acc : gmap string LayerInfo) (owner : string) :
  layers_wf ls →
  foldl (λ layerInfo entry, <[String_of entry.1 := layer_info entry.2]> layerInfo) acc ls
    !! owner
  = match Map_get (Some owner) ls with
    | Some objs => Some (layer_info objs)
    | None => acc !! owner
    end.
Proof.
  revert acc. induction ls as [|[k objs] ls IH]; intros acc [Hdup Hnull]; [done|].
  csimpl in *. apply NoDup_cons in Hdup as [Hfresh Hdup].
  apply not_elem_of_cons in Hnull as [Hk Hnull].
  destruct k as [k|]; [|done]. rewrite IH by done. simpl.
  destruct (decide (Some owner = Some k)) as [[= ->]|Hne].
  - rewrite Map_get_None by done. apply lookup_insert_eq.
  - destruct (Map_get (Some owner) ls); [done|].
    apply lookup_insert_ne. congruence.
Qed.

Lemma getLayerInfo_lookup c owner :
  layers_wf (layers c) →
  getLayerInfo c !! owner = layer_info <$> Map_get (Some owner) (layers c).
Proof.
  intros Hwf. unfold getLayerInfo. rewrite layer_info_fold by done.
  by destruct (Map_get (Some owner) (layers c)).
Qed.

(** C6, as the code has it.  [clearAgentLayer] never throws.  On a
    well-formed store, the count of a layer that exists is 0 after the
    clear; an id without a layer gets none, the store stays as it is and
    [getLayerInfo] has no entry for it.  Clearing an empty layer, or
    clearing a second time, does not change the store. *)
Theorem clearAgentLayer_count (agentId : string) (s : App) :
  layers_wf (layers (canvasManager s)) →
  let once := (clearAgentLayer agentId s).2 in
  let twice := (clearAgentLayer agentId once).2 in
  let present := Map_has (Some agentId) (layers (canvasManager s)) in
  (clearAgentLayer agentId s).1 = Return ()
  ∧ (clearAgentLayer agentId once).1 = Return ()
  ∧ object_count <$> getLayerInfo (canvasManager once) !! agentId
    = (if present then Some 0 else None)
  ∧ (present = false → layers (canvasManager once) = layers (canvasManager s))
  ∧ (Map_get (Some agentId) (layers (canvasManager s)) = Some [] →
       layers (canvasManager once) = layers (canvasManager s))
  ∧ layers (canvasManager twice) = layers (canvasManager once).
Proof.
  intros Hwf. simpl. rewrite !clearAgentLayer_returns, !clearAgentLayer_layers.
  split; [done|]. split; [done|].
  destruct (Map_has (Some agentId) (layers (canvasManager s))) eqn:Hhas.
  - rewrite Map_has_set, bool_decide_eq_true_2 by done. simpl.
    rewrite Map_set_set. split; [|split; [done|split; [|done]]].
    + rewrite getLayerInfo_lookup.
      * rewrite clearAgentLayer_layers, Hhas. by rewrite Map_get_set_eq.
      * rewrite clearAgentLayer_layers, Hhas. by apply layers_wf_set.
    + intros Hempty. by apply Map_set_same.
  - rewrite Hhas. split; [|done].
    rewrite getLayerInfo_lookup by (by rewrite clearAgentLayer_layers, Hhas).
    rewrite clearAgentLayer_layers, Hhas.
    unfold Map_has in Hhas. by destruct (Map_get (Some agentId) _).
Qed.

(** ** Counting the objects of a layer *)

Lemma perform_returns op s : (perform op s).1 = Return ().
Proof.
  destruct op; simpl; unfold_js; simpl; try done.
  - apply clearAgentLayer_returns.
  - unfold clearCanvas. by rewrite sendCanvasAction_eq.
Qed.

Lemma perform_layers op s :
  layers (canvasManager (perform op s).2) = layer_effect op (layers (canvasManager s)).
Proof.
  destruct op; simpl; unfold_js; simpl; try done.
  - rewrite clearAgentLayer_layers. by destruct (Map_has _ _).
  - unfold clearCanvas. by rewrite sendCanvasAction_eq.
Qed.

(** A local stroke goes to the human layer and is tagged with the human,
    whatever drawing mode was set before the gesture, and no [draw]
    action is handed to the channel. *)
Lemma local_stroke_is_human (e : PointerEvent) (path : FabricObject) (now : Z) (s : App) :
  let after := (perform (LocalDraw e path now) s).2 in
  layers (canvasManager after)
  = push_layer (Some "human")
      (FabricObj (set_data path {| agent := Some "human"; timestamp := now |}))
      (layers (canvasManager s))
  ∧ websocketManager after = websocketManager s.
Proof. done. Qed.

Lemma layer_effect_wf op ls : layers_wf ls → layers_wf (layer_effect op ls).
Proof.
  intros Hwf. destruct op; simpl; auto using layers_wf_push.
  - destruct (Map_has _ _); [done | by apply layers_wf_set].
  - destruct (Map_has _ _); [by apply layers_wf_set | done].
  - split; [apply NoDup_singleton | by intros [=]%list_elem_of_singleton].
Qed.

Lemma length_pushed (k : option string) (obj : LayerObject)
    (ls : list (option string * list LayerObject)) (h : bool) (n : nat) :
  length <$> Map_get k ls = (if h then Some n else None) → (h = false → n = 0) →
  length (default [] (Map_get k ls) ++ [obj]) = S n.
Proof.
  intros Hcount Hzero. rewrite length_app. simpl.
  destruct (Map_get k ls) as [objs|]; destruct h; simplify_eq/=; [lia|].
  rewrite Hzero by done. lia.
Qed.

Lemma layer_effect_count (op : LayerOperation)
    (ls : list (option string * list LayerObject)) (owner : string) (h : bool) (n : nat) :
  length <$> Map_get (Some owner) ls = (if h then Some n else None) →
  (h = false → n = 0) →
  length <$> Map_get (Some owner) (layer_effect op ls)
  = (if entry_step owner h op then Some (count_step owner n op) else None).
Proof.
  intros Hcount Hzero. unfold count_step.
  destruct op as [e path now|agentId c|agentId path now|content position agentId now
                 |agentId|]; simpl.
  - rewrite Map_get_push. case_bool_decide as Howner.
    + subst owner. rewrite decide_True by done. rewrite orb_true_r. simpl.
      f_equal. by eapply length_pushed.
    + rewrite decide_False by congruence. by rewrite orb_false_r.
  - case_bool_decide as Howner.
    + subst owner. rewrite orb_true_r. unfold Map_has.
      destruct (Map_get (Some agentId) ls) as [objs|] eqn:Hget.
      * rewrite Hget. by destruct h; simplify_eq/=.
      * rewrite Map_get_set_eq. simpl. destruct h; simplify_eq/=.
        by rewrite Hzero.
    + rewrite orb_false_r.
      destruct (Map_has (Some agentId) ls); [done|].
      rewrite Map_get_set_ne by congruence. done.
  - rewrite Map_get_push. case_bool_decide as Howner.
    + subst owner. rewrite decide_True by done. rewrite orb_true_r. simpl.
      f_equal. by eapply length_pushed.
    + rewrite decide_False by congruence. by rewrite orb_false_r.
  - rewrite Map_get_push. case_bool_decide as Howner.
    + subst owner. rewrite decide_True by done. rewrite orb_true_r. simpl.
      f_equal. by eapply length_pushed.
    + rewrite decide_False by congruence. by rewrite orb_false_r.
  - rewrite orb_false_r. case_bool_decide as Howner.
    + subst owner. unfold Map_has.
      destruct (Map_get (Some agentId) ls) as [objs|] eqn:Hget.
      * rewrite Map_get_set_eq. by destruct h; simplify_eq/=.
      * rewrite Hget. by destruct h; simplify_eq/=.
    + destruct (Map_has (Some agentId) ls); [|done].
      rewrite Map_get_set_ne by congruence. done.
  - case_bool_decide as Howner.
    + subst owner. by rewrite decide_True.
    + rewrite decide_False by congruence. done.
Qed.

Lemma count_step_zero owner op (h : bool) (n : nat) :
  (h = false → n = 0) → entry_step owner h op = false → count_step owner n op = 0.
Proof.
  intros Hzero. unfold count_step.
  destruct op; simpl; repeat case_bool_decide; simpl;
    rewrite ?orb_true_r, ?orb_false_r; try done; intros ->; auto.
Qed.

Lemma no_layer_no_object owner ops : has_layer owner ops = false → live_objects owner ops = 0.
Proof.
  unfold has_layer, live_objects.
  induction ops as [|op ops IH] using rev_ind; [done|].
  rewrite !foldl_app. simpl. by apply count_step_zero.
Qed.

Lemma session_layers ops s owner :
  let c := canvasManager (session perform ops (fresh_canvas s)) in
  layers_wf (layers c)
  ∧ length <$> Map_get (Some owner) (layers c)
    = (if has_layer owner ops then Some (live_objects owner ops) else None).
Proof.
  simpl. unfold session, has_layer, live_objects.
  induction ops as [|op ops [IHwf IH]] using rev_ind.
  - simpl. split.
    + split; [apply NoDup_singleton | by intros [=]%list_elem_of_singleton].
    + case_bool_decide as Howner.
      * subst owner. by rewrite decide_True.
      * rewrite decide_False by congruence. done.
  - rewrite !foldl_app. simpl. rewrite perform_layers. split.
    + by apply layer_effect_wf.
    + apply layer_effect_count; [done|]. apply no_layer_no_object.
Qed.

(** C7, as the code has it.  After any sequence of local strokes, remote
    drawings, diagrams, drawing-mode switches, layer clears and full
    clears on a freshly constructed canvas manager, [getLayerInfo] has
    an entry for an owner exactly when the owner has a layer, and its
    [object_count] is the number of objects added under the owner since
    the last clear that reached that layer; an owner without a layer has
    no entry, and no object. *)
Theorem layer_count_tracks_session (ops : list LayerOperation) (owner : string) (s : App) :
  let c := canvasManager (session perform ops (fresh_canvas s)) in
  object_count <$> getLayerInfo c !! owner
  = (if has_layer owner ops then Some (live_objects owner ops) else None)
  ∧ (has_layer owner ops = false → live_objects owner ops = 0).
Proof.
  simpl. destruct (session_layers ops s owner) as [Hwf Hcount]. simpl in *.
  split; [|apply no_layer_no_object].
  rewrite getLayerInfo_lookup by done. rewrite <- Hcount.
  by destruct (Map_get (Some owner) _).
Qed.

(** ** Removing a diagram *)

Lemma remove_element_absent i l : i ∉ l → remove_element i l = l.
Proof.
  induction l as [|j l IH]; simpl; [done|].
  intros Hnot. apply not_elem_of_cons in Hnot as [Hne Hrest].
  rewrite decide_False by done. by rewrite IH.
Qed.

Lemma remove_element_added i l : i ∉ l → remove_element i (l ++ [i]) = l.
Proof.
  induction l as [|j l IH]; simpl.
  - by rewrite decide_True.
  - intros Hnot. apply not_elem_of_cons in Hnot as [Hne Hrest].
    rewrite decide_False by done. by rewrite IH.
Qed.

(** C8, what the code does.  [removeMermaidDiagram] takes the container
    of the diagram out of the document and never touches the canvas
    manager: a diagram that was added under an owner and then removed is
    still in the layer of that owner and still counted.  Removing an id
    that no element carries changes nothing. *)
Theorem removeMermaidDiagram_keeps_layer_record
    (content : string) (position : Position) (owner : string) (now : Z) (s : App) :
  let added := addMermaidDiagram content position (Some owner) now s in
  let removed := removeMermaidDiagram added.1 added.2 in
  (added.1 ∉ elements s → elements removed = elements s)
  ∧ canvasManager removed = canvasManager added.2
  ∧ MermaidObj added.1 content position
      ∈ getLayerObjects (Some owner) (canvasManager removed)
  ∧ length (getLayerObjects (Some owner) (canvasManager removed))
    = S (length (getLayerObjects (Some owner) (canvasManager s)))
  ∧ (∀ diagramId s', diagramId ∉ elements s' → removeMermaidDiagram diagramId s' = s').
Proof.
  simpl. unfold removeMermaidDiagram. simpl.
  rewrite bool_decide_eq_true_2 by (apply elem_of_app; right; by left).
  simpl. split; [apply remove_element_added|]. split; [done|].
  unfold getLayerObjects. simpl. rewrite Map_get_push, decide_True by done. simpl.
  split; [apply elem_of_app; right; by left|].
  split; [rewrite length_app; simpl; lia|].
  intros diagramId s' Hnot. by rewrite bool_decide_eq_false_2.
Qed.

(** ** The human layer *)

Lemma preserves_bind {A B} (P : App → Prop) (m : JS App A) (f : A → JS App B) :
  preserves P m → (∀ a, preserves P (f a)) → preserves P (m ≫= f).
Proof.
  intros Hm Hf s HP. unfold_js. specialize (Hm s HP).
  destruct (m s) as [[a|exn] s']; simpl in *; [by apply Hf | done].
Qed.

Lemma preserves_ret {A} (P : App → Prop) (a : A) : preserves P (mret a).
Proof. by intros s HP. Qed.

Lemma preserves_throw {A} (P : App → Prop) exn : preserves P (throw (A:=A) exn).
Proof. by intros s HP. Qed.

Lemma preserves_modify (P : App → Prop) (f : App → App) :
  (∀ s, P s → P (f s)) → preserves P (modify f).
Proof. intros Hf s HP. by apply Hf. Qed.

Lemma preserves_try_catch {A} (P : App → Prop) (body : JS App A) handler :
  preserves P body → (∀ exn, preserves P (handler exn)) →
  preserves P (try_catch body handler).
Proof.
  intros Hbody Hhandler s HP. unfold try_catch. specialize (Hbody s HP).
  destruct (body s) as [[a|exn] s']; simpl in *; [done | by apply Hhandler].
Qed.

(** A method that leaves the canvas manager alone keeps its layers. *)
Lemma preserves_same_canvasManager {A} (m : JS App A) :
  (∀ s, canvasManager (m s).2 = canvasManager s) → preserves has_human_layer m.
Proof. intros Hsame s HP. unfold has_human_layer. by rewrite Hsame. Qed.

Lemma human_send_if_present message : preserves has_human_layer (send_if_present message).
Proof.
  apply preserves_same_canvasManager. intros s. by rewrite send_if_present_eq.
Qed.

Lemma human_on_canvasManager (f : CanvasManager → CanvasManager) :
  (∀ c, Map_has (Some "human") (layers c) = true →
        Map_has (Some "human") (layers (f c)) = true) →
  preserves has_human_layer (on_canvasManager f).
Proof. intros Hf s HP. by apply Hf. Qed.

Lemma human_push k obj ls :
  Map_has (Some "human") ls = true → Map_has (Some "human") (push_layer k obj ls) = true.
Proof. intros Hhas. rewrite Map_has_push, Hhas. apply orb_true_r. Qed.

Lemma human_clearAgentLayer agentId : preserves has_human_layer (clearAgentLayer agentId).
Proof.
  intros s HP. unfold has_human_layer in *. rewrite clearAgentLayer_layers.
  destruct (Map_has (Some agentId) _); [|done].
  rewrite Map_has_set, HP. apply orb_true_r.
Qed.

Lemma human_clearCanvas : preserves has_human_layer clearCanvas.
Proof.
  intros s _. unfold has_human_layer, clearCanvas. by rewrite sendCanvasAction_eq.
Qed.

Lemma human_on_path_created path now : preserves has_human_layer (on_path_created path now).
Proof.
  intros s HP. unfold has_human_layer, on_path_created in *. simpl.
  case_bool_decide; [rewrite sendCanvasAction_eq|]; simpl; by apply human_push.
Qed.

Lemma human_perform op : preserves has_human_layer (perform op).
Proof.
  intros s HP. unfold has_human_layer in *. rewrite perform_layers.
  destruct op; simpl; try (by apply human_push).
  - destruct (Map_has (Some agentId) _); [done|].
    rewrite Map_has_set, HP. apply orb_true_r.
  - destruct (Map_has (Some agentId) _); [|done].
    rewrite Map_has_set, HP. apply orb_true_r.
  - done.
Qed.

Lemma human_handleCanvasAction action now :
  preserves has_human_layer (handleCanvasAction action now).
Proof.
  unfold handleCanvasAction. apply preserves_bind; [|intros _; by apply preserves_modify].
  repeat case_bool_decide.
  - destruct (action_data action ≫= d_path); [|apply preserves_ret].
    apply preserves_modify. intros s HP. by apply human_push.
  - destruct (action_data action) as [d|]; [|apply preserves_ret].
    destruct (truthy _); [|apply preserves_ret].
    apply preserves_modify. intros s HP. by apply human_push.
  - apply human_clearCanvas.
  - destruct (action_data action ≫= d_cleared_agent_id) as [cleared|]; [|apply preserves_ret].
    destruct (truthy cleared); [by apply preserves_modify | apply preserves_ret].
  - apply preserves_ret.
Qed.

Lemma handleAgentResponses_canvasManager query responses s :
  canvasManager (handleAgentResponses query responses s) = canvasManager s.
Proof.
  unfold handleAgentResponses.
  assert (∀ (rs : list (string * string)) s0,
            canvasManager (foldl (λ s r, addAgentMessage r.1 r.2 s) s0 rs)
            = canvasManager s0) as Hfold.
  { induction rs as [|r rs IH]; intros s0; simpl; [done | by rewrite IH]. }
  by rewrite Hfold.
Qed.

Ltac human_steps :=
  repeat (apply preserves_bind; [|intros _]);
  try (apply preserves_modify; by intros ? ?).

Lemma human_handleMessage message now : preserves has_human_layer (handleMessage message now).
Proof.
  destruct message as [a|a|i| |action|query|i|a|a|i|action|query responses|i|text|text|t];
    cbn [handleMessage]; try apply preserves_ret.
  - apply human_handleCanvasAction.
  - human_steps.
  - human_steps.
  - human_steps.
  - destruct (action_data action ≫= d_request) as [request|];
      [|apply preserves_throw].
    apply preserves_modify. intros s HP. unfold handleModificationRequest.
    by repeat case_match.
  - apply preserves_modify. intros s HP. unfold has_human_layer in *.
    by rewrite handleAgentResponses_canvasManager.
  - human_steps. apply human_clearAgentLayer.
  - human_steps.
Qed.

Lemma human_operate op : preserves has_human_layer (operate op).
Proof.
  destruct op; simpl.
  - apply human_perform.
  - by apply human_on_canvasManager.
  - by apply human_on_canvasManager.
  - apply human_on_path_created.
  - apply human_on_canvasManager. intros c Hc. unfold undoLastAction.
    by destruct (last (undoStack c)).
  - apply preserves_modify. intros s HP. unfold removeMermaidDiagram.
    by destruct (bool_decide _).
  - apply preserves_bind; [apply human_clearAgentLayer|].
    intros _. apply human_send_if_present.
  - unfold removeAgent. destruct confirmed; [|apply preserves_ret].
    repeat (apply preserves_bind; [|intros _]);
      try (by apply preserves_modify);
      [apply human_send_if_present | apply human_clearAgentLayer].
  - apply preserves_bind; [|intros _; apply preserves_ret].
    apply preserves_same_canvasManager. intros s.
    apply requestModification_canvasManager.
  - apply preserves_try_catch; [apply human_handleMessage|].
    intros _. apply preserves_ret.
Qed.

(** C9. The store has the entry keyed ["human"] once the canvas manager
    is constructed, and still has it after any sequence of actions:
    strokes, pointer events, remote drawings and diagrams, layer clears,
    full clears, undo, agent removals, diagram removals, modification
    requests and inbound messages. *)
Theorem human_layer_persists (ops : list Operation) (s : App) :
  has_human_layer (fresh_canvas s)
  ∧ has_human_layer (session operate ops (fresh_canvas s)).
Proof.
  split; [done|]. unfold session.
  induction ops as [|op ops IH] using rev_ind; [done|].
  rewrite foldl_app. simpl. by apply human_operate.
Qed.

(** * More properties of the code *)

(** ** Closing and reopening the connection *)

(** X11. After [disconnect] the manager is disconnected and shows Offline, no
    reconnect timer was set, and [sendMessage] returns [false] and hands
    nothing to the socket, whatever the socket was doing. *)
Theorem disconnect_blocks_sending (message : Message) (w : WebSocketManager) :
  let w' := disconnect w in
  isConnected w' = false
  ∧ status w' = {| textContent := "Offline"; className := "status-offline" |}
  ∧ ws w' = socket_close <$> ws w
  ∧ scheduled w' = scheduled w
  ∧ reconnectAttempts w' = reconnectAttempts w
  ∧ wire w' = wire w
  ∧ sendMessage message w' = (Return false, w').
Proof.
  simpl. rewrite sendMessage_eq. unfold deliver, accepts, disconnect.
  destruct (ws w) as [r|] eqn:Hws; simpl; rewrite ?Hws; done.
Qed.

(** X12. [onopen] gives the whole reconnect budget back: whatever happened
    before, the counter is 0, every message that serializes is sent, and
    the failures that follow set timers with the delays 1000, 2000, ...
    again, five at most. *)
Theorem onopen_restores_budget (w : WebSocketManager) (es : list ConnectionEvent) :
  maxReconnectAttempts w = 5 → reconnectDelay w = 1000 →
  let opened := onopen w in
  reconnectAttempts opened = 0
  ∧ status opened = {| textContent := "Online"; className := "status-online" |}
  ∧ (∀ message, is_Some (JSON_stringify message) →
       sendMessage message opened = (Return true, handed message opened))
  ∧ scheduled (foldl connection_step opened es)
    = scheduled w ++ reconnect_delays (failures es `min` 5).
Proof.
  intros Hmax Hdelay. simpl. split; [done|]. split; [done|]. split.
  - intros message Hok. rewrite sendMessage_eq. unfold deliver, accepts. simpl.
    by rewrite (bool_decide_eq_true_2 _ Hok).
  - by destruct (reconnect_invariant (onopen w) es Hmax Hdelay eq_refl)
      as (_ & _ & _ & _ & ->).
Qed.

(** ** The conversation log *)

#[local] Arguments addMessage : simpl never.

Lemma push_shift_most_recent {A} (n : nat) (l : list A) (x : A) :
  length l ≤ n →
  (if bool_decide (n < length (l ++ [x])) then tail (l ++ [x]) else l ++ [x])
  = most_recent n (l ++ [x]).
Proof.
  intros Hlen. unfold most_recent. rewrite length_app. simpl.
  case_bool_decide as Hfull.
  - replace (length l + 1 - n) with 1 by lia. by destruct (l ++ [x]).
  - by replace (length l + 1 - n) with 0 by lia.
Qed.

Lemma most_recent_snoc {A} (n : nat) (l : list A) (x : A) :
  most_recent n (most_recent n l ++ [x]) = most_recent n (l ++ [x]).
Proof.
  unfold most_recent.
  rewrite <- (drop_app_le l [x] (length l - n)) by lia.
  rewrite drop_drop. f_equal. rewrite length_drop, !length_app. simpl. lia.
Qed.

Lemma length_most_recent {A} (n : nat) (l : list A) :
  length (most_recent n l) = length l `min` n.
Proof. unfold most_recent. rewrite length_drop. lia. Qed.

Lemma addMessage_most_recent message c :
  length (messages c) ≤ maxMessages →
  messages (addMessage message c) = most_recent maxMessages (messages c ++ [message]).
Proof. intros Hlen. unfold addMessage. simpl. by apply push_shift_most_recent. Qed.

Lemma foldl_addMessage_most_recent c ms :
  length (messages c) ≤ maxMessages →
  messages (foldl (λ c m, addMessage m c) c ms) = most_recent maxMessages (messages c ++ ms).
Proof.
  intros Hlen. induction ms as [|m ms IH] using rev_ind; simpl.
  - rewrite app_nil_r. unfold most_recent.
    by replace (length (messages c) - maxMessages) with 0 by lia.
  - rewrite foldl_app. cbn [foldl]. rewrite addMessage_most_recent.
    + rewrite IH, app_assoc. apply most_recent_snoc.
    + rewrite IH, length_most_recent. lia.
Qed.

(** X23. The log is a bounded queue: after any messages are added to a log of
    at most 1000 entries, it holds the 1000 most recent entries of the
    old log followed by the new messages, in order, and never more. *)
Theorem log_keeps_most_recent (c : ConversationManager) (ms : list ConvMessage) :
  length (messages c) ≤ maxMessages →
  let c' := foldl (λ c m, addMessage m c) c ms in
  messages c' = most_recent maxMessages (messages c ++ ms)
  ∧ length (messages c') ≤ maxMessages
  ∧ (length (messages c) + length ms ≤ maxMessages → messages c' = messages c ++ ms).
Proof.
  intros Hlen. simpl. rewrite foldl_addMessage_most_recent by done.
  split; [done|]. split.
  - rewrite length_most_recent. lia.
  - intros Hroom. unfold most_recent. rewrite length_app.
    by replace (length (messages c) + length ms - maxMessages) with 0 by lia.
Qed.

Lemma count_types_partition (l : list ConvMessage) :
  Forall typed l →
  length l = count_type "user" l + count_type "agent" l + count_type "system" l.
Proof.
  unfold count_type. induction 1 as [|m l Hm Hl IH]; [done|].
  rewrite !filter_cons. simpl. rewrite IH.
  destruct Hm as [Hm|[Hm|Hm]]; rewrite Hm; simpl; lia.
Qed.

Lemma addMessage_typed message c :
  typed message → Forall typed (messages c) → Forall typed (messages (addMessage message c)).
Proof.
  intros Hm Hc. unfold addMessage. simpl.
  assert (Forall typed (messages c ++ [message])) as Hall.
  { apply Forall_app. split; [done | by apply Forall_singleton]. }
  case_bool_decide; [|done].
  destruct (messages c ++ [message]); [done | by apply Forall_cons_1 in Hall as [_ ?]].
Qed.

Lemma log_action_adds s a :
  ∃ m, typed m ∧ conversationManager (log_action s a) = addMessage m (conversationManager s).
Proof. destruct a; (eexists; split; [|reflexivity]); unfold typed; simpl; auto. Qed.

(** X24. [getStats] adds up: in a log filled by [addUserMessage],
    [addAgentMessage] and [addSystemMessage], however many entries were
    evicted, the total is the sum of the user, agent and system counts,
    and it is at most 1000. *)
Theorem getStats_partition (actions : list LogAction) (s : App) :
  let log := conversationManager
               (foldl log_action (with_conversationManager s {| messages := [] |}) actions) in
  st_total (getStats log)
  = st_user (getStats log) + st_agent (getStats log) + st_system (getStats log)
  ∧ st_total (getStats log) ≤ maxMessages.
Proof.
  simpl.
  assert (Forall typed (messages (conversationManager
            (foldl log_action (with_conversationManager s {| messages := [] |}) actions)))
          ∧ length (messages (conversationManager
            (foldl log_action (with_conversationManager s {| messages := [] |}) actions)))
            ≤ maxMessages) as [Htyped Hlen].
  { induction actions as [|a actions [IHt IHl]] using rev_ind.
    - simpl. split; [done | unfold maxMessages; lia].
    - rewrite foldl_app. cbn [foldl].
      destruct (log_action_adds
                  (foldl log_action (with_conversationManager s {| messages := [] |})
                     actions) a) as (m & Hm & ->).
      split; [by apply addMessage_typed|].
      rewrite addMessage_most_recent by done. rewrite length_most_recent. lia. }
  split; [by apply count_types_partition | done].
Qed.

(** ** Undo *)

#[local] Arguments saveToUndoStack : simpl never.


(** X6. [undoLastAction] pops the newest snapshot and nothing else of the
    stack; with no snapshot it does nothing.  The layers are never part
    of an undo: every layer keeps its objects and [getLayerInfo] gives
    what it gave before. *)
Theorem undoLastAction_pops (c : CanvasManager) :
  layers (undoLastAction c) = layers c
  ∧ getLayerInfo (undoLastAction c) = getLayerInfo c
  ∧ currentAgent (undoLastAction c) = currentAgent c
  ∧ (undoStack c = [] → undoLastAction c = c)
  ∧ (∀ older newest, undoStack c = older ++ [newest] →
       undoStack (undoLastAction c) = older)
  ∧ length (undoStack (undoLastAction c)) = pred (length (undoStack c)).
Proof.
  unfold undoLastAction, getLayerInfo.
  destruct (undoStack c) as [|newest' older' _] eqn:Hstack using rev_ind.
  - simpl. rewrite ?Hstack. split; [done|]. split; [done|]. split; [done|].
    split; [done|]. split; [|done].
    intros older newest Heq. by destruct older.
  - rewrite ?Hstack, last_snoc. simpl. rewrite removelast_last.
    split; [done|]. split; [done|]. split; [done|].
    split; [by destruct older'|]. split.
    + by intros older newest [-> _]%app_inj_tail.
    + rewrite length_app. simpl. lia.
Qed.

(** ** The full clear *)

(** X8. [clearCanvas] never throws and brings the canvas manager back to the
    store of a new one: no object on the canvas, the empty human layer
    and no other, no snapshot to undo.  One [clear] action is handed to
    the channel.  The elements of the document, the registry and the
    log are not touched. *)
Theorem clearCanvas_resets (s : App) :
  let r := clearCanvas s in
  r.1 = Return ()
  ∧ canvas (canvasManager r.2) = []
  ∧ layers (canvasManager r.2) = layers CanvasManager_new
  ∧ getLayerInfo (canvasManager r.2)
    = {[ "human" := {| object_count := 0; object_types := []; last_modified := 0 |} ]}
  ∧ undoStack (canvasManager r.2) = []
  ∧ undoLastAction (canvasManager r.2) = canvasManager r.2
  ∧ frames r.2 = frames s ++ sent_on s clear_action
  ∧ elements r.2 = elements s
  ∧ agentManager r.2 = agentManager s
  ∧ conversationManager r.2 = conversationManager s.
Proof.
  simpl. unfold clearCanvas. rewrite sendCanvasAction_eq. cbn [fst snd].
  rewrite frames_delivered. repeat split; done.
Qed.

(** ** Reading the layers *)

Lemma foldl_max_start (l : list Z) (t : Z) : (t ≤ foldl Z.max t l)%Z.
Proof.
  revert t. induction l as [|y l IH]; intros t; simpl; [lia|].
  specialize (IH (Z.max t y)). lia.
Qed.

Lemma foldl_max_ge (l : list Z) (t x : Z) :
  x = t ∨ x ∈ l → (x ≤ foldl Z.max t l)%Z.
Proof.
  intros [->|Hin]; [apply foldl_max_start|].
  revert t. induction l as [|y l IH]; intros t; simpl.
  - by apply elem_of_nil in Hin.
  - apply elem_of_cons in Hin as [->|Hin]; [|by apply IH].
    pose proof (foldl_max_start l (Z.max t y)). lia.
Qed.

Lemma foldl_max_in (l : list Z) (t : Z) :
  foldl Z.max t l = t ∨ foldl Z.max t l ∈ l.
Proof.
  revert t. induction l as [|y l IH]; intros t; simpl; [by left|].
  destruct (IH (Z.max t y)) as [Heq|Hin].
  - rewrite Heq. destruct (Z.max_spec t y) as [[_ ->]|[_ ->]];
      [right; by left | by left].
  - right. by right.
Qed.

(** X9. What [getLayerInfo] reports for a layer of a well-formed store: the
    number of its objects, one type per object, and as [last_modified]
    the largest timestamp among its objects, which is 0 for an empty
    layer. *)
Theorem getLayerInfo_reports (c : CanvasManager) (owner : string)
    (objects : list LayerObject) :
  layers_wf (layers c) →
  Map_get (Some owner) (layers c) = Some objects →
  ∃ info,
    getLayerInfo c !! owner = Some info
    ∧ object_count info = length objects
    ∧ object_types info = type_of <$> objects
    ∧ (objects = [] → last_modified info = 0%Z)
    ∧ (∀ obj, obj ∈ objects → (timestamp_of obj ≤ last_modified info)%Z)
    ∧ (objects ≠ [] → ∃ obj, obj ∈ objects ∧ last_modified info = timestamp_of obj).
Proof.
  intros Hwf Hget. exists (layer_info objects).
  rewrite getLayerInfo_lookup, Hget by done.
  split; [done|]. split; [done|]. split; [done|]. unfold layer_info. simpl.
  destruct objects as [|first rest]; csimpl.
  - split; [done|]. split; [by intros ? ?%elem_of_nil | done].
  - split; [done|]. split.
    + intros obj Hin. apply foldl_max_ge.
      apply elem_of_cons in Hin as [->|Hin]; [by left | right].
      by apply list_elem_of_fmap_2.
    + intros _. destruct (foldl_max_in (timestamp_of <$> rest) (timestamp_of first))
        as [->|Hin].
      * exists first. split; [by left | done].
      * apply list_elem_of_fmap in Hin as (obj & -> & Hobj).
        exists obj. split; [by right | done].
Qed.

(** X10. [hasLayerObjects] and [getLayerObjects] agree with each other, and on
    a well-formed store with [getLayerInfo]: an agent has layer objects
    exactly when its list of objects is not empty, which is when
    [getLayerInfo] gives it a positive count; an agent without a layer
    has the empty list. *)
Theorem hasLayerObjects_agrees (c : CanvasManager) (agentId : string) :
  layers_wf (layers c) →
  (hasLayerObjects (Some agentId) c = true ↔ getLayerObjects (Some agentId) c ≠ [])
  ∧ (hasLayerObjects (Some agentId) c = true ↔
       ∃ info, getLayerInfo c !! agentId = Some info ∧ 0 < object_count info)
  ∧ (Map_has (Some agentId) (layers c) = false → getLayerObjects (Some agentId) c = [])
  ∧ length (getLayerObjects (Some agentId) c)
    = from_option object_count 0 (getLayerInfo c !! agentId).
Proof.
  intros Hwf. unfold hasLayerObjects, getLayerObjects, Map_has.
  rewrite getLayerInfo_lookup by done.
  destruct (Map_get (Some agentId) (layers c)) as [objects|]; simpl.
  - rewrite bool_decide_eq_true. repeat split; try done.
    + intros Hpos ->. simpl in Hpos. lia.
    + intros Hne. destruct objects; [done | simpl; lia].
    + intros Hpos. by exists (layer_info objects).
    + by intros (info & [= <-] & Hpos).
  - repeat split; try done. by intros (info & [=] & _).
Qed.

(** ** Entering the drawing mode *)

(** X4. [setAgentDrawingMode] makes the agent the active owner with its
    colour on the brush and makes sure it has a layer, without changing
    the objects of any layer; doing it twice is doing it once. *)
Theorem setAgentDrawingMode_ensures_layer (agentId color : string) (c : CanvasManager) :
  let c' := setAgentDrawingMode agentId color c in
  currentAgent c' = Some agentId
  ∧ brush_color c' = color
  ∧ Map_has (Some agentId) (layers c') = true
  ∧ (∀ k, getLayerObjects k c' = getLayerObjects k c)
  ∧ (∀ k, Map_has k (layers c') = bool_decide (k = Some agentId) || Map_has k (layers c))
  ∧ canvas c' = canvas c
  ∧ setAgentDrawingMode agentId color c' = c'.
Proof.
  simpl. unfold setAgentDrawingMode, getLayerObjects. simpl.
  destruct (Map_has (Some agentId) (layers c)) eqn:Hhas; simpl.
  - rewrite Hhas. repeat split; try done.
    intros k. destruct (decide (k = Some agentId)) as [->|Hne].
    + by rewrite Hhas, orb_true_r.
    + by rewrite bool_decide_eq_false_2.
  - rewrite Map_has_set, bool_decide_eq_true_2 by done. simpl.
    split; [done|]. split; [done|]. split; [done|]. split; [|split; [|done]].
    + intros k. rewrite Map_get_set. destruct (decide (Some agentId = k)) as [<-|Hne]; [|done].
      unfold Map_has in Hhas. by destruct (Map_get (Some agentId) (layers c)).
    + intros k. rewrite Map_has_set. f_equal. apply bool_decide_ext. naive_solver.
Qed.

(** ** Path creation *)

(** X2. The [path:created] listener, for the active owner [k] it finds: the
    path is tagged with [k], or with the human when [k] is [null] or
    empty, and becomes the last object of the layer keyed [k]; the other
    layers stay; and one [draw] action in the name of [k], carrying the
    colour and the width of the stroke, is handed to the channel exactly
    when [k] is not the human. *)
Theorem path_created_broadcast (path : FabricObject) (now : Z) (s : App) :
  let r := on_path_created path now s in
  let k := currentAgent (canvasManager s) in
  let tagged := set_data path {| agent := Some (or_else k "human"); timestamp := now |} in
  r.1 = Return ()
  ∧ getLayerObjects k (canvasManager r.2)
    = getLayerObjects k (canvasManager s) ++ [FabricObj tagged]
  ∧ (∀ k', k' ≠ k →
       Map_get k' (layers (canvasManager r.2)) = Map_get k' (layers (canvasManager s)))
  ∧ currentAgent (canvasManager r.2) = k
  ∧ (k = Some "human" → frames r.2 = frames s)
  ∧ (k ≠ Some "human" →
       ∃ payload,
         frames r.2
         = frames s ++ sent_on s (canvas_action {| action_agent_id := k;
                                                   action_type := "draw";
                                                   action_data := Some payload |})
         ∧ d_color payload = Some (stroke path)
         ∧ d_width payload = Some (strokeWidth path)).
Proof.
  simpl. unfold on_path_created. simpl.
  case_bool_decide as Hagent.
  - rewrite sendCanvasAction_eq. cbn [fst snd]. rewrite frames_delivered.
    unfold getLayerObjects. simpl. rewrite Map_get_push, decide_True by done.
    split; [done|]. split; [done|]. split.
    { intros k' Hk'. rewrite Map_get_push. by rewrite decide_False. }
    split; [done|]. split; [done|].
    intros _. eexists. split; [reflexivity|]. done.
  - unfold getLayerObjects. simpl. rewrite Map_get_push, decide_True by done.
    split; [done|]. split; [done|]. split.
    { intros k' Hk'. rewrite Map_get_push. by rewrite decide_False. }
    split; [done|]. split; [done|].
    intros Hk. by destruct Hagent.
Qed.

(** X3. A stroke drawn after an agent entered the drawing mode: the pointer
    press makes the human the active owner again, so the path goes to the
    human layer, the layer of the agent keeps what it had, and no [draw]
    action is handed to the channel. *)
Theorem stroke_after_drawing_mode (agentId color : string) (e : PointerEvent)
    (path : FabricObject) (now : Z) (s : App) :
  agentId ≠ "human" →
  let after := session perform [DrawingMode agentId color; LocalDraw e path now] s in
  getLayerObjects (Some "human") (canvasManager after)
  = getLayerObjects (Some "human") (canvasManager s)
      ++ [FabricObj (set_data path {| agent := Some "human"; timestamp := now |})]
  ∧ getLayerObjects (Some agentId) (canvasManager after)
    = getLayerObjects (Some agentId) (canvasManager s)
  ∧ currentAgent (canvasManager after) = Some "human"
  ∧ frames after = frames s.
Proof.
  intros Hne. unfold session. cbn [foldl].
  set (s1 := (perform (DrawingMode agentId color) s).2).
  assert (layers (canvasManager s1)
          = layer_effect (DrawingMode agentId color) (layers (canvasManager s))) as Hs1
    by apply perform_layers.
  unfold getLayerObjects. rewrite perform_layers, Hs1. cbn [layer_effect].
  rewrite !Map_get_push, decide_True by done.
  rewrite decide_False by congruence.
  split; [|split; [|split]].
  - destruct (Map_has (Some agentId) (layers (canvasManager s))); [done|].
    by rewrite Map_get_set_ne by congruence.
  - destruct (Map_has (Some agentId) (layers (canvasManager s))) eqn:Hhas; [done|].
    rewrite Map_get_set_eq. unfold Map_has in Hhas.
    by destruct (Map_get (Some agentId) (layers (canvasManager s))).
  - done.
  - unfold frames. by destruct (local_stroke_is_human e path now s1) as [_ ->].
Qed.

(** ** What every action keeps *)

#[local] Arguments addMessage : simpl never.
#[local] Arguments saveToUndoStack : simpl never.

Ltac run_action :=
  unfold operate, perform, on_canvasManager, onmessage, handleMessage, handleCanvasAction,
    agent_clearAgentLayer, removeAgent, requestModification,
    canvas_requestModification, clearAgentLayer, clearCanvas, on_path_created,
    removeMermaidDiagram, handleModificationRequest;
  unfold_js;
  repeat first
    [ progress (rewrite ?sendCanvasAction_eq, ?send_if_present_eq)
    | progress cbn beta iota zeta delta [fst snd]
    | case_bool_decide
    | case_match ];
  simplify_eq.


Lemma push_shift_bounded {A} (n : nat) (l : list A) (x : A) :
  length l ≤ n →
  length (if bool_decide (n < length (l ++ [x])) then tail (l ++ [x]) else l ++ [x]) ≤ n.
Proof.
  intros Hlen. rewrite push_shift_most_recent, length_most_recent by done. lia.
Qed.

Lemma undoLastAction_bounded c :
  length (undoStack c) ≤ maxUndoSteps → length (undoStack (undoLastAction c)) ≤ maxUndoSteps.
Proof.
  intros Hlen. unfold undoLastAction.
  destruct (undoStack c) as [|newest older _] eqn:Hstack using rev_ind.
  - simpl. by rewrite Hstack.
  - rewrite last_snoc. simpl. rewrite removelast_last.
    rewrite length_app in Hlen. simpl in Hlen. lia.
Qed.

Lemma undo_bounded_operate op : preserves undo_bounded (operate op).
Proof.
  intros s HP. unfold undo_bounded in *.
  destruct op as [[]| | | | | | | | |]; try destruct message; run_action;
    simpl; rewrite ?handleAgentResponses_canvasManager;
    try done; try (unfold maxUndoSteps; simpl; lia);
    try by apply push_shift_bounded.
  by apply undoLastAction_bounded.
Qed.

Lemma session_preserves {Op} (P : App → Prop) (step : Op → JS App ()) :
  (∀ op, preserves P (step op)) → ∀ ops s, P s → P (session step ops s).
Proof.
  intros Hstep ops. unfold session.
  induction ops as [|op ops IH]; intros s HP; simpl; [done|].
  apply IH. by apply Hstep.
Qed.

(** X7. The undo stack never holds more than 50 snapshots, whatever the
    page does. *)
Theorem undo_stack_bounded (ops : list Operation) (s : App) :
  length (undoStack (canvasManager s)) ≤ maxUndoSteps →
  length (undoStack (canvasManager (session operate ops s))) ≤ maxUndoSteps.
Proof. apply (session_preserves undo_bounded), undo_bounded_operate. Qed.

Lemma addMessage_log_ok message c :
  typed message → log_ok c → log_ok (addMessage message c).
Proof.
  intros Hm [Hlen Htyped]. split; [|by apply addMessage_typed].
  unfold addMessage. simpl. by apply push_shift_bounded.
Qed.

Lemma handleAgentResponses_log_ok query responses s :
  log_ok (conversationManager s) →
  log_ok (conversationManager (handleAgentResponses query responses s)).
Proof.
  intros Hok. unfold handleAgentResponses.
  assert (∀ (rs : list (string * string)) s0,
            log_ok (conversationManager s0) →
            log_ok (conversationManager (foldl (λ s r, addAgentMessage r.1 r.2 s) s0 rs)))
    as Hfold.
  { induction rs as [|r rs IH]; intros s0 Hs0; simpl; [done|].
    apply IH. simpl. apply addMessage_log_ok; [|done]. right. by left. }
  apply Hfold. simpl. apply addMessage_log_ok; [|done]. right. by right.
Qed.

Lemma log_ok_operate op : preserves (λ s, log_ok (conversationManager s)) (operate op).
Proof.
  intros s HP.
  destruct op as [[]| | | | | | | | |]; try destruct message; run_action;
    simpl; try done; try (by apply handleAgentResponses_log_ok);
    repeat (apply addMessage_log_ok; [right; by right|]); done.
Qed.

(** X25. The log never holds more than 1000 messages and only messages of the
    three kinds, whatever the page does; so the counts of [getStats] add
    up to its total. *)
Theorem session_log_bounded (ops : list Operation) (s : App) :
  log_ok (conversationManager s) →
  let log := conversationManager (session operate ops s) in
  length (messages log) ≤ maxMessages
  ∧ Forall typed (messages log)
  ∧ st_total (getStats log)
    = st_user (getStats log) + st_agent (getStats log) + st_system (getStats log).
Proof.
  intros Hok log.
  destruct (session_preserves (λ s, log_ok (conversationManager s)) operate
              log_ok_operate ops s Hok) as [Hlen Htyped].
  split; [done|]. split; [done|]. by apply count_types_partition.
Qed.

Lemma handleAgentResponses_agentManager query responses s :
  agentManager (handleAgentResponses query responses s) = agentManager s.
Proof.
  unfold handleAgentResponses.
  assert (∀ (rs : list (string * string)) s0,
            agentManager (foldl (λ s r, addAgentMessage r.1 r.2 s) s0 rs)
            = agentManager s0) as Hfold.
  { induction rs as [|r rs IH]; intros s0; simpl; [done | by rewrite IH]. }
  by rewrite Hfold.
Qed.

Lemma handleAgentResponses_websocketManager query responses s :
  websocketManager (handleAgentResponses query responses s) = websocketManager s.
Proof.
  unfold handleAgentResponses.
  assert (∀ (rs : list (string * string)) s0,
            websocketManager (foldl (λ s r, addAgentMessage r.1 r.2 s) s0 rs)
            = websocketManager s0) as Hfold.
  { induction rs as [|r rs IH]; intros s0; simpl; [done | by rewrite IH]. }
  by rewrite Hfold.
Qed.

Lemma registry_wf_operate op : preserves registry_wf (operate op).
Proof.
  intros s HP. unfold registry_wf in *.
  destruct op as [[]| | | | | | | | |]; try destruct message; run_action;
    simpl; rewrite ?handleAgentResponses_agentManager; try done.
  - intros k a' [_ ?]%lookup_delete_Some. eauto.
  - intros k a' [_ ?]%lookup_delete_Some. eauto.
  - intros k a' [[<- <-]|[_ ?]]%lookup_insert_Some; eauto.
  - intros k a' [[<- <-]|[_ ?]]%lookup_insert_Some; eauto.
  - intros k a' [_ ?]%lookup_delete_Some. eauto.
Qed.

(** X18. Every registered agent is stored under its own id, whatever the
    page does and whatever the server sends: [getAgentById] returns an
    agent with the id it was asked for, or nothing. *)
Theorem registry_keyed_by_id (ops : list Operation) (s : App) (agentId : string) :
  registry_wf s →
  match getAgentById (Some agentId) (session operate ops s) with
  | Some found => agent_id found = agentId
  | None => True
  end.
Proof.
  intros Hwf.
  pose proof (session_preserves registry_wf operate registry_wf_operate ops s Hwf) as Hend.
  unfold getAgentById. simpl.
  destruct (agents (agentManager (session operate ops s)) !! agentId) eqn:Hlook; [|done].
  by apply Hend.
Qed.

(** ** Inbound messages *)



(** X16. An inbound [modification_request] is only shown: with or without
    request data, from registered agents or not, it changes no layer, no
    agent and no element, and nothing is handed to the channel; the log
    gets one line when both agents are registered. *)
Theorem inbound_request_is_observational (action : CanvasAction) (now : Z) (s : App) :
  let s' := (onmessage (modification_request action) now s).2 in
  canvasManager s' = canvasManager s
  ∧ agentManager s' = agentManager s
  ∧ elements s' = elements s
  ∧ websocketManager s' = websocketManager s
  ∧ (conversationManager s' = conversationManager s
     ∨ ∃ request fromAgent toAgent content,
         action_data action ≫= d_request = Some request
         ∧ agents (agentManager s) !! from_agent_id request = Some fromAgent
         ∧ agents (agentManager s) !! to_agent_id request = Some toAgent
         ∧ conversationManager s'
           = addMessage {| m_type := "system"; m_sender := "System"; m_content := content;
                           m_agentId := None; m_agentColor := None |}
               (conversationManager s)).
Proof.
  run_action; simpl; (do 4 (split; [done|])); try by left.
  right. by eexists _, _, _, _.
Qed.


(** X15. An inbound draw with a path puts exactly one object, tagged with the
    sender and the time, on the canvas and at the end of the layer of the
    sender (a layer made on the spot when there was none); the other
    layers, the active owner and the undo stack stay, and nothing is sent
    back. *)
Theorem inbound_draw_adds_one (action : CanvasAction) (path : FabricObject)
    (now : Z) (s : App) :
  action_type action = "draw" →
  action_data action ≫= d_path = Some path →
  let s' := (onmessage (canvas_action action) now s).2 in
  let k := action_agent_id action in
  let tagged := set_data path {| agent := k; timestamp := now |} in
  canvas (canvasManager s') = canvas (canvasManager s) ++ [tagged]
  ∧ getLayerObjects k (canvasManager s')
    = getLayerObjects k (canvasManager s) ++ [FabricObj tagged]
  ∧ (∀ k', k' ≠ k →
       Map_get k' (layers (canvasManager s')) = Map_get k' (layers (canvasManager s)))
  ∧ currentAgent (canvasManager s') = currentAgent (canvasManager s)
  ∧ undoStack (canvasManager s') = undoStack (canvasManager s)
  ∧ frames s' = frames s.
Proof.
  intros Htype Hpath. run_action; simpl.
  unfold getLayerObjects. simpl. rewrite Map_get_push, decide_True by done.
  split; [done|]. split; [done|]. split; [|done].
  intros k' Hk'. rewrite Map_get_push. by rewrite decide_False.
Qed.

(** X17. An agent the server adds and then removes: in between it is
    registered under its id, and afterwards the registry and the document
    are what they were; no layer is made or touched for it and nothing
    is sent. *)
Theorem agent_added_then_removed (a : Agent) (now later : Z) (s : App) :
  agents (agentManager s) !! agent_id a = None →
  "agent-" +:+ agent_id a ∉ elements s →
  let s1 := (onmessage (agent_added a) now s).2 in
  let s2 := (onmessage (agent_removed (agent_id a)) later s1).2 in
  getAgentById (Some (agent_id a)) s1 = Some a
  ∧ "agent-" +:+ agent_id a ∈ elements s1
  ∧ getAgentById (Some (agent_id a)) s2 = None
  ∧ agentManager s2 = agentManager s
  ∧ elements s2 = elements s
  ∧ canvasManager s2 = canvasManager s
  ∧ frames s2 = frames s.
Proof.
  intros Hnew Hcard. run_action; simpl.
  unfold getAgentById. simpl.
  rewrite lookup_insert_eq, lookup_delete_eq, delete_insert_id, remove_element_added by done.
  split; [done|]. split; [set_solver|]. split; [done|].
  split; [by destruct (agentManager s)|]. done.
Qed.

(** ** The agent manager *)

Lemma accepts_deliver message message' w :
  accepts message' (deliver message w) = accepts message' w.
Proof. unfold deliver. by destruct (accepts message w). Qed.

Lemma frames_delivered_twice m1 m2 s :
  frames (with_websocketManager s (deliver m2 <$> (deliver m1 <$> websocketManager s)))
  = frames s ++ sent_on s m1 ++ sent_on s m2.
Proof.
  unfold frames, sent_on, channel_accepts. simpl.
  destruct (websocketManager s) as [w|]; simpl; [|done].
  by rewrite !wire_deliver, accepts_deliver, app_assoc.
Qed.

(** X19. The Clear Layer button of an agent card: the layer of the agent is
    emptied as [clearAgentLayer] of the canvas manager does it, and the
    server is always told with a [clear_agent_layer] message, also when
    the agent had no layer; that message goes after the [layer_cleared]
    action of the canvas manager.  The registry, the document and the
    log stay. *)
Theorem agent_clear_notifies_server (agentId : string) (s : App) :
  let r := agent_clearAgentLayer agentId s in
  r.1 = Return ()
  ∧ canvasManager r.2 = canvasManager (clearAgentLayer agentId s).2
  ∧ hasLayerObjects (Some agentId) (canvasManager r.2) = false
  ∧ frames r.2
    = frames s
      ++ (if Map_has (Some agentId) (layers (canvasManager s))
          then sent_on s (layer_cleared_action agentId) else [])
      ++ sent_on s (clear_agent_layer agentId)
  ∧ agentManager r.2 = agentManager s
  ∧ elements r.2 = elements s
  ∧ conversationManager r.2 = conversationManager s.
Proof.
  unfold agent_clearAgentLayer, clearAgentLayer. unfold_js.
  destruct (Map_has (Some agentId) (layers (canvasManager s))) eqn:Hhas;
    rewrite ?sendCanvasAction_eq; cbn [fst snd]; rewrite send_if_present_eq; simpl.
  - split; [done|]. split; [done|]. split.
    { unfold hasLayerObjects. simpl. rewrite Map_get_set_eq. apply andb_false_r. }
    split; [|done].
    exact (frames_delivered_twice (layer_cleared_action agentId)
             (clear_agent_layer agentId) s).
  - split; [done|]. split; [done|]. split.
    { unfold hasLayerObjects. by apply andb_false_intro1. }
    split; [|done]. exact (frames_delivered (clear_agent_layer agentId) s).
Qed.

Lemma remove_element_gone i l : NoDup l → i ∉ remove_element i l.
Proof.
  induction 1 as [|j l Hj Hl IH]; simpl; [apply not_elem_of_nil|].
  destruct (decide (j = i)) as [->|Hne]; [done|].
  apply not_elem_of_cons. split; [done|apply IH].
Qed.

(** X20. Removing an agent.  When the dialog is declined nothing happens.
    When it is confirmed the agent leaves the registry and the others
    stay, its card leaves the document, and its layer is emptied but
    keeps its entry; the server gets [remove_agent] and then, when the
    agent had a layer, the [layer_cleared] action. *)
Theorem removeAgent_effect (agentId : string) (confirmed : bool) (s : App) :
  let r := removeAgent agentId confirmed s in
  r.1 = Return ()
  ∧ (confirmed = false → r.2 = s)
  ∧ (confirmed = true →
     getAgentById (Some agentId) r.2 = None
     ∧ (∀ k, k ≠ agentId → getAgentById (Some k) r.2 = getAgentById (Some k) s)
     ∧ (NoDup (elements s) → "agent-" +:+ agentId ∉ elements r.2)
     ∧ hasLayerObjects (Some agentId) (canvasManager r.2) = false
     ∧ (∀ k, Map_has k (layers (canvasManager r.2)) = Map_has k (layers (canvasManager s)))
     ∧ (∀ k, k ≠ Some agentId →
          getLayerObjects k (canvasManager r.2) = getLayerObjects k (canvasManager s))
     ∧ frames r.2
       = frames s ++ sent_on s (remove_agent agentId)
         ++ (if Map_has (Some agentId) (layers (canvasManager s))
             then sent_on s (layer_cleared_action agentId) else [])).
Proof.
  unfold removeAgent, clearAgentLayer. unfold_js.
  destruct confirmed; [|done].
  rewrite send_if_present_eq. cbn [fst snd]. simpl.
  destruct (Map_has (Some agentId) (layers (canvasManager s))) eqn:Hhas;
    rewrite ?sendCanvasAction_eq; simpl.
  - split; [done|]. split; [done|]. intros _.
    unfold getAgentById, hasLayerObjects, getLayerObjects. simpl.
    split; [apply lookup_delete_eq|].
    split; [by intros k Hk; rewrite lookup_delete_ne|].
    split; [apply remove_element_gone|].
    split; [rewrite Map_get_set_eq; apply andb_false_r|].
    split.
    { intros k. rewrite Map_has_set. case_bool_decide; by simplify_eq. }
    split; [by intros k Hk; rewrite Map_get_set_ne by congruence|].
    exact (frames_delivered_twice (remove_agent agentId)
             (layer_cleared_action agentId) s).
  - split; [done|]. split; [done|]. intros _.
    unfold getAgentById, hasLayerObjects, getLayerObjects. simpl.
    split; [apply lookup_delete_eq|].
    split; [by intros k Hk; rewrite lookup_delete_ne|].
    split; [apply remove_element_gone|].
    split; [by apply andb_false_intro1|].
    split; [done|]. split; [done|].
    rewrite app_nil_r. exact (frames_delivered (remove_agent agentId) s).
Qed.

Lemma toggleAgentStatus_registered agentId found s :
  agents (agentManager s) !! agentId = Some found →
  agent_id found = agentId →
  let toggled := set_is_active found (negb (is_active found)) in
  toggleAgentStatus agentId s
  = (Return (),
     with_websocketManager
       (with_agents s (<[agentId := toggled]> (agents (agentManager s))))
       (deliver (update_agent toggled) <$> websocketManager s)).
Proof.
  intros Hfound Hid. simpl. unfold toggleAgentStatus. rewrite Hfound.
  unfold_js. rewrite send_if_present_eq. unfold updateAgentInUI. simpl.
  by rewrite Hid, insert_insert_eq.
Qed.

Lemma set_is_active_back found :
  set_is_active (set_is_active found (negb (is_active found)))
    (negb (negb (is_active found))) = found.
Proof. by destruct found as [? ? ? ? ? ? []]. Qed.

(** X21. Toggling the status of an agent.  An id that is not registered
    changes nothing.  A registered agent has its flag flipped and
    nothing else, the other agents stay, and the server is told the new
    state; toggling twice gives the registry back, and the two updates go
    out in order.  The canvas manager, the document and the log stay. *)
Theorem toggleAgentStatus_twice (agentId : string) (s : App) :
  registry_wf s →
  let r1 := toggleAgentStatus agentId s in
  let r2 := toggleAgentStatus agentId r1.2 in
  r1.1 = Return () ∧ r2.1 = Return ()
  ∧ (agents (agentManager s) !! agentId = None → r1.2 = s)
  ∧ (∀ k, k ≠ agentId → getAgentById (Some k) r1.2 = getAgentById (Some k) s)
  ∧ (∀ found, agents (agentManager s) !! agentId = Some found →
       let toggled := set_is_active found (negb (is_active found)) in
       getAgentById (Some agentId) r1.2 = Some toggled
       ∧ getAgentById (Some agentId) r2.2 = Some found
       ∧ frames r2.2 = frames s ++ sent_on s (update_agent toggled)
                         ++ sent_on s (update_agent found))
  ∧ agentManager r2.2 = agentManager s
  ∧ canvasManager r2.2 = canvasManager s
  ∧ elements r2.2 = elements s
  ∧ conversationManager r2.2 = conversationManager s.
Proof.
  intros Hwf. simpl.
  destruct (agents (agentManager s) !! agentId) as [found|] eqn:Hfound.
  - assert (agent_id found = agentId) as Hid by by apply Hwf.
    rewrite (toggleAgentStatus_registered agentId found s Hfound Hid). cbn [fst snd].
    rewrite (toggleAgentStatus_registered agentId
               (set_is_active found (negb (is_active found)))); cycle 1.
    { simpl. apply lookup_insert_eq. }
    { done. }
    cbn [fst snd]. simpl. rewrite set_is_active_back.
    rewrite insert_insert_eq, (insert_id _ _ _ Hfound).
    unfold getAgentById. simpl.
    split; [done|]. split; [done|]. split; [done|].
    split; [by intros k Hk; rewrite lookup_insert_ne|].
    split.
    { intros ? [= <-]. rewrite lookup_insert_eq, Hfound.
      split; [done|]. split; [done|].
      exact (frames_delivered_twice
               (update_agent (set_is_active found (negb (is_active found))))
               (update_agent found) s). }
    split; [by destruct (agentManager s)|]. done.
  - unfold toggleAgentStatus. rewrite Hfound. cbn [fst snd]. rewrite Hfound.
    cbn [fst snd]. done.
Qed.

(** ** The request form *)

(** X22. A request submitted from the form of a target, on the page the form
    was built on: the requesting agent is an active registered agent
    other than the target, so the request passes the check of
    [requestModification], is returned, and one [modification_request]
    action from the requesting agent to the target is handed to the
    channel. *)
Theorem form_request_is_accepted (targetAgentId description type_ : string) (now : Z)
    (offered : list Agent) (requesting : Agent) (s : App) :
  registry_wf s →
  showModificationRequestModal targetAgentId s = Some offered →
  requesting ∈ offered →
  let r := submit_modification_request targetAgentId requesting description type_ now s in
  let request :=
    modification_request_of (agent_id requesting) targetAgentId
      {| rd_description := description; rd_type := type_; rd_timestamp := now |} now in
  agent_id requesting ≠ targetAgentId
  ∧ is_active requesting = true
  ∧ getAgentById (Some (agent_id requesting)) s = Some requesting
  ∧ r.1 = Return (Some request)
  ∧ frames r.2 = frames s ++ sent_on s (modification_action request)
  ∧ canvasManager r.2 = canvasManager s
  ∧ agentManager r.2 = agentManager s.
Proof.
  intros Hwf Hshown Hoffered. cbv zeta.
  unfold showModificationRequestModal in Hshown.
  destruct (agents (agentManager s) !! targetAgentId) as [targetAgent|] eqn:Htarget;
    [|done].
  injection Hshown as <-.
  apply list_elem_of_filter in Hoffered as [Hother Hactive].
  unfold getActiveAgents in Hactive.
  apply list_elem_of_filter in Hactive as [Hactive Hin].
  apply list_elem_of_fmap in Hin as ([k a] & -> & Hin).
  apply elem_of_map_to_list in Hin. simpl in *.
  assert (agent_id a = k) as <- by by apply Hwf.
  unfold submit_modification_request. rewrite requestModification_eq, Hin, Htarget.
  unfold getAgentById. simpl.
  split; [done|]. split; [done|]. split; [done|]. split; [done|].
  split; [|done].
  exact (frames_delivered
           (modification_action
              (modification_request_of (agent_id a) targetAgentId
                 {| rd_description := description; rd_type := type_;
                    rd_timestamp := now |} now)) s).
Qed.

(** ** Typing a message or a query *)

Lemma last_addMessage message c : last (messages (addMessage message c)) = Some message.
Proof.
  unfold addMessage. simpl. case_bool_decide as Hfull; [|apply last_snoc].
  destruct (messages c) as [|first rest]; simpl in *.
  - unfold maxMessages in Hfull. lia.
  - apply last_snoc.
Qed.

(** X26. The message field and the query field.  Text that is blank after
    trimming does nothing.  Otherwise the trimmed text is logged, as a
    user message or as the line that the query was sent, and the same
    [query_agents] message is handed to the channel in both cases.  The
    log line says the query was sent whether or not the channel took the
    message. *)
Theorem typed_text_is_logged_and_queried (value : string) (s : App) :
  let text := String_trim value in
  let r := sendUserMessage value s in
  let q := sendQueryToAgents value s in
  let sent_line :=
    system_message ("Query sent to all agents: " +:+ quote_mark +:+ text +:+ quote_mark) in
  r.1 = Return () ∧ q.1 = Return ()
  ∧ (text = EmptyString → r.2 = s ∧ q.2 = s)
  ∧ (text ≠ EmptyString →
     conversationManager r.2 = conversationManager (addUserMessage text s)
     ∧ conversationManager q.2 = addMessage sent_line (conversationManager s)
     ∧ last (messages (conversationManager q.2)) = Some sent_line
     ∧ frames r.2 = frames s ++ sent_on s (query_agents text)
     ∧ frames q.2 = frames r.2)
  ∧ canvasManager r.2 = canvasManager s ∧ canvasManager q.2 = canvasManager s
  ∧ agentManager r.2 = agentManager s ∧ agentManager q.2 = agentManager s.
Proof.
  simpl. unfold sendUserMessage, sendQueryToAgents, truthy. unfold_js.
  case_bool_decide as Htext.
  - rewrite !send_if_present_eq. simpl.
    split; [done|]. split; [done|]. split; [done|]. split; [|done].
    intros _. split; [done|]. split; [done|]. split; [apply last_addMessage|].
    split; [|done].
    exact (frames_delivered (query_agents (String_trim value)) s).
  - simpl.
    split; [done|]. split; [done|]. split; [done|]. split; [|done].
    intros Hne. by destruct Hne.
Qed.

(** ** The responses of the agents *)

Lemma addAgentMessages_log (responses : list (string * string)) (s : App) :
  agentManager (foldl (λ s r, addAgentMessage r.1 r.2 s) s responses) = agentManager s
  ∧ conversationManager (foldl (λ s r, addAgentMessage r.1 r.2 s) s responses)
    = foldl (λ c m, addMessage m c) (conversationManager s) (agent_message s <$> responses).
Proof.
  induction responses as [|r rs IH] using rev_ind; [done|].
  rewrite fmap_app, !foldl_app. cbn [foldl fmap list_fmap]. destruct IH as [Hagents Hlog].
  split; [done|]. simpl. rewrite Hlog. f_equal.
  unfold agent_message, agent_label, getAgentById. simpl. by rewrite Hagents.
Qed.

(** X27. [handleAgentResponses] logs a header line with the number of
    responses and then every response in order, each under the name and
    the colour of its agent in the registry (an unregistered id gets
    the label with its id and the colour #666); the log keeps its most
    recent 1000 entries.  Nothing else of the page changes. *)
Theorem handleAgentResponses_logs (query : string) (responses : list (string * string))
    (s : App) :
  length (messages (conversationManager s)) ≤ maxMessages →
  let s' := handleAgentResponses query responses s in
  let header :=
    system_message ("Received responses from " +:+ pretty (length responses)
                    +:+ " agents for query: " +:+ quote_mark +:+ query +:+ quote_mark) in
  messages (conversationManager s')
  = most_recent maxMessages
      (messages (conversationManager s) ++ header :: (agent_message s <$> responses))
  ∧ canvasManager s' = canvasManager s
  ∧ agentManager s' = agentManager s
  ∧ websocketManager s' = websocketManager s
  ∧ elements s' = elements s.
Proof.
  intros Hlen. simpl.
  assert (∀ (rs : list (string * string)) s0,
            websocketManager (foldl (λ s r, addAgentMessage r.1 r.2 s) s0 rs)
            = websocketManager s0
            ∧ elements (foldl (λ s r, addAgentMessage r.1 r.2 s) s0 rs) = elements s0)
    as Hfold.
  { induction rs as [|r rs IH]; intros s0; simpl; [done|].
    by rewrite !(proj1 (IH _)), !(proj2 (IH _)). }
  split; [|split; [apply handleAgentResponses_canvasManager|
           split; [apply handleAgentResponses_agentManager|]]].
  - unfold handleAgentResponses.
    destruct (addAgentMessages_log responses
                (addSystemMessage
                   ("Received responses from " +:+ pretty (length responses)
                    +:+ " agents for query: " +:+ quote_mark +:+ query +:+ quote_mark) s))
      as [_ ->].
    exact (foldl_addMessage_most_recent (conversationManager s)
             (system_message
                ("Received responses from " +:+ pretty (length responses)
                 +:+ " agents for query: " +:+ quote_mark +:+ query +:+ quote_mark)
              :: (agent_message s <$> responses)) Hlen).
  - unfold handleAgentResponses.
    by destruct (Hfold responses
                   (addSystemMessage
                      ("Received responses from " +:+ pretty (length responses)
                       +:+ " agents for query: " +:+ quote_mark +:+ query +:+ quote_mark) s))
      as [-> ->].
Qed.

(** ** Clearing the conversation *)

Lemma length_addMessage message c :
  length (messages c) ≤ maxMessages →
  length (messages (addMessage message c)) = S (length (messages c)) `min` maxMessages.
Proof.
  intros Hlen. rewrite addMessage_most_recent, length_most_recent, length_app by done.
  cbn [length]. lia.
Qed.

Lemma length_log_actions actions s :
  length (messages (conversationManager s)) ≤ maxMessages →
  length (messages (conversationManager (foldl log_action s actions)))
  = (length (messages (conversationManager s)) + length actions) `min` maxMessages.
Proof.
  intros Hlen. induction actions as [|a actions IH] using rev_ind; simpl.
  - lia.
  - rewrite foldl_app, length_app. cbn [foldl length].
    destruct (log_action_adds (foldl log_action s actions) a) as (m & _ & ->).
    rewrite length_addMessage by (rewrite IH; lia). rewrite IH. lia.
Qed.

(** X28. [clearConversation]: when the dialog is declined nothing changes;
    when it is confirmed the log holds one entry, the system line that
    the history was cleared, and the log counts from there: after [n]
    more messages [getStats] gives the total [n + 1], up to 1000.  The
    canvas manager, the registry and the channel are not touched. *)
Theorem clearConversation_restarts_log (confirmed : bool) (actions : list LogAction)
    (s : App) :
  let cleared := clearConversation confirmed s in
  (confirmed = false → cleared = s)
  ∧ (confirmed = true →
     messages (conversationManager cleared)
     = [system_message "Conversation history cleared."]
     ∧ getStats (conversationManager cleared)
       = {| st_total := 1; st_user := 0; st_agent := 0; st_system := 1 |}
     ∧ st_total (getStats (conversationManager (foldl log_action cleared actions)))
       = (1 + length actions) `min` maxMessages)
  ∧ canvasManager cleared = canvasManager s
  ∧ agentManager cleared = agentManager s
  ∧ websocketManager cleared = websocketManager s
  ∧ elements cleared = elements s.
Proof.
  cbv zeta. destruct confirmed; unfold clearConversation.
  - split; [done|]. split; [|done]. intros _.
    split; [reflexivity|]. split; [reflexivity|].
    unfold getStats. cbn [st_total]. rewrite length_log_actions; [done|].
    unfold maxMessages. simpl. lia.
  - split; [done|]. split; [|done]. done.
Qed.

(** ** The statistics of the application *)

Lemma connection_operate op s :
  from_option isConnected false (websocketManager (operate op s).2)
  = from_option isConnected false (websocketManager s).
Proof.
  assert (∀ message w, isConnected (deliver message w) = isConnected w) as Hdeliver.
  { intros message w. unfold deliver. by destruct (accepts message w). }
  destruct op as [[]| | | | | | | | |]; try destruct message; run_action;
    simpl; rewrite ?handleAgentResponses_websocketManager; try done;
    destruct (websocketManager _); simpl; by rewrite ?Hdeliver.
Qed.

(** X29. What [MainApp.getStats] reports at any moment of a session of a page
    that started with a human layer and a log within its bound: never
    more active agents than agents, at least one canvas layer, at most
    1000 conversation messages; and the actions of the page do not
    change the connection status. *)
Theorem app_stats_in_session (ops : list Operation) (s : App) :
  has_human_layer s →
  log_ok (conversationManager s) →
  let stats := app_getStats (session operate ops s) in
  stats_activeAgents stats ≤ stats_agents stats
  ∧ 1 ≤ stats_canvasLayers stats
  ∧ stats_conversationMessages stats ≤ maxMessages
  ∧ stats_connectionStatus stats = stats_connectionStatus (app_getStats s).
Proof.
  intros Hhuman Hlog. simpl.
  split.
  { unfold getActiveAgents. etrans; [apply length_filter|].
    by rewrite length_fmap, length_map_to_list. }
  split.
  { pose proof (session_preserves has_human_layer operate human_operate ops s Hhuman)
      as Hend.
    unfold has_human_layer, Map_has in Hend.
    destruct (layers (canvasManager (session operate ops s))); simpl in *; [done|lia]. }
  split.
  { by destruct (session_preserves (λ s, log_ok (conversationManager s)) operate
                   log_ok_operate ops s Hlog). }
  apply (session_preserves
           (λ s', from_option isConnected false (websocketManager s')
                  = from_option isConnected false (websocketManager s)) operate);
    [|done].
  intros op s' Hs'. by rewrite connection_operate.
Qed.

End Page.

(** * The code on concrete inputs *)

(** C5 on the open channel: the connection drops, and each of the sockets
    made by the next two timers fails with an [error] and a [close].
    Five timers were set, with the delays 1000 to 5000, and the manager
    is disconnected. *)
Lemma reconnect_bound_witness :
  let drops := [SocketClose false;
                TimerConnect false; SocketError; SocketClose false;
                TimerConnect false; SocketError; SocketClose false] in
  let w := foldl connection_step open_channel drops in
  reconnectAttempts w = 5
  ∧ scheduled w = [1000; 2000; 3000; 4000; 5000]
  ∧ isConnected w = false.
Proof.
  destruct (reconnect_bound open_channel
              [SocketClose false;
               TimerConnect false; SocketError; SocketClose false;
               TimerConnect false; SocketError; SocketClose false]
              eq_refl eq_refl eq_refl) as (Hattempts & Hscheduled & Hoff & _).
  split; [exact Hattempts|]. split; [exact Hscheduled | exact Hoff].
Defined.

Lemma page_with_drawing_wf : layers_wf (layers (canvasManager page_with_drawing)).
Proof. apply (bool_decide_unpack _). by vm_compute. Qed.

(** C6 on the layer of ["agent-1"], which holds one path: the count is 0
    after the clear. *)
Lemma clearAgentLayer_count_witness :
  object_count
    <$> getLayerInfo
          (canvasManager (clearAgentLayer stringify_all "agent-1" page_with_drawing).2)
        !! "agent-1"
  = Some 0.
Proof.
  destruct (clearAgentLayer_count stringify_all "agent-1" page_with_drawing
              page_with_drawing_wf) as (_ & _ & Hcount & _).
  exact Hcount.
Defined.

(** Against C1: the active owner is the human, the object under the
    pointer belongs to ["agent-1"], and the gate lets the event through:
    propagation is not stopped and the listener does not return [false]. *)
Lemma human_pointer_on_agent_object_passes :
  let c := canvasManager page_with_drawing in
  let e := {| target := Some drawn_path; propagationStopped := false |} in
  canvas c = [drawn_path]
  ∧ currentAgent (mouse_down e c).1 = Some "human"
  ∧ (mouse_down e c).2 = (e, None)
  ∧ on_mouse_down_gate e (on_mouse_down_draw c) = (e, None).
Proof. by vm_compute. Qed.

(** Against C2: the channel is open and takes the action, but
    ["agent-1"] has no layer, and the [layer_cleared] message makes the
    handler send nothing. *)
Lemma layer_cleared_without_layer_sends_nothing :
  let r := handleMessage stringify_all (layer_cleared "agent-1") 1 page in
  channel_accepts stringify_all (layer_cleared_action "agent-1") page = true
  ∧ r.1 = Return ()
  ∧ frames r.2 = []
  ∧ layers (canvasManager r.2) = [(Some "human", [])].
Proof. by vm_compute. Qed.

(** Against C3: agent ["a"] asks itself; the request is built, sent and
    returned. *)
Lemma request_to_self_is_sent :
  let s := addAgentToUI agent_a page in
  let request := modification_request_of "a" "a" remove_request 9 in
  let r := requestModification stringify_all "a" "a" remove_request 9 s in
  from_agent_id request = to_agent_id request
  ∧ r.1 = Return (Some request)
  ∧ frames r.2 = [modification_action request].
Proof. by vm_compute. Qed.

(** Against C6: ["agent-1"] has no layer on the fresh page; after
    [clearAgentLayer] there is still no entry to read a count from. *)
Lemma clear_without_layer_gives_no_count :
  let s := (clearAgentLayer stringify_all "agent-1" page).2 in
  getLayerInfo (canvasManager s) !! "agent-1" = None
  ∧ Map_has (Some "agent-1") (layers (canvasManager s)) = false.
Proof. by vm_compute. Qed.

(** Against C7: ["agent-1"] draws one path and the canvas is cleared.
    None of its objects is left, yet [getLayerInfo] has no entry for it,
    so there is no count that equals 0. *)
Lemma count_missing_after_full_clear :
  let ops := [RemoteDraw "agent-1" blue_path 1; ClearAll] in
  let c := canvasManager (session (perform stringify_all) ops (fresh_canvas page)) in
  live_objects "agent-1" ops = 0
  ∧ getLayerInfo c !! "agent-1" = None
  ∧ object_count <$> getLayerInfo c !! "human" = Some 0.
Proof. by vm_compute. Qed.

(** C8 on the fresh page: a diagram is added to the human layer at time
    1 and removed.  Its container is gone from the document; the layer
    still holds the record and the count is still 1. *)
Lemma removed_diagram_is_still_counted :
  let added := addMermaidDiagram "graph TD; A-->B" {| x := 50; y := 50 |} (Some "human") 1 page in
  let removed := removeMermaidDiagram added.1 added.2 in
  added.1 = "mermaid-1"
  ∧ elements added.2 = ["mermaid-1"]
  ∧ elements removed = []
  ∧ layers (canvasManager removed)
    = [(Some "human", [MermaidObj "mermaid-1" "graph TD; A-->B" {| x := 50; y := 50 |}])]
  ∧ object_count <$> getLayerInfo (canvasManager removed) !! "human" = Some 1.
Proof. by vm_compute. Qed.

(** * The other properties on concrete inputs *)

(** The socket opens again on the exhausted manager; two errors follow:
    the counter went back to 0 and the timers start at 1000 again. *)
Lemma onopen_restores_budget_witness :
  let opened := onopen exhausted_channel in
  reconnectAttempts opened = 0
  ∧ scheduled (foldl connection_step opened [SocketError; SocketError])
    = [1000; 2000; 3000; 4000; 5000; 1000; 2000].
Proof.
  destruct (onopen_restores_budget stringify_all exhausted_channel
              [SocketError; SocketError] eq_refl eq_refl)
    as (Hattempts & _ & _ & Hscheduled).
  split; [exact Hattempts | exact Hscheduled].
Defined.

(** Two messages added to the empty log. *)
Lemma log_keeps_most_recent_witness :
  messages (foldl (λ c m, addMessage m c) {| messages := [] |} [welcome; hello])
  = [welcome; hello].
Proof.
  destruct (log_keeps_most_recent {| messages := [] |} [welcome; hello] (Nat.le_0_l _))
    as (Hlog & _).
  exact Hlog.
Defined.


(** The layer of ["agent-1"] with its one path. *)
Lemma getLayerInfo_reports_witness :
  ∃ info,
    getLayerInfo (canvasManager page_with_drawing) !! "agent-1" = Some info
    ∧ object_count info = 1
    ∧ object_types info = ["path"].
Proof.
  destruct (getLayerInfo_reports (canvasManager page_with_drawing) "agent-1"
              [FabricObj drawn_path] page_with_drawing_wf eq_refl)
    as (info & Hinfo & Hcount & Htypes & _).
  exists info. split; [exact Hinfo|]. split; [exact Hcount | exact Htypes].
Defined.

Lemma hasLayerObjects_agrees_witness :
  length (getLayerObjects (Some "agent-1") (canvasManager page_with_drawing))
  = from_option object_count 0 (getLayerInfo (canvasManager page_with_drawing) !! "agent-1").
Proof.
  destruct (hasLayerObjects_agrees (canvasManager page_with_drawing) "agent-1"
              page_with_drawing_wf) as (_ & _ & _ & Hlength).
  exact Hlength.
Defined.

(** ["agent-1"] enters the drawing mode and a stroke is drawn: the path
    is in the human layer and nothing was sent. *)
Lemma stroke_after_drawing_mode_witness :
  let e := {| target := None; propagationStopped := false |} in
  let after := session (perform stringify_all)
                 [DrawingMode "agent-1" "#3b82f6"; LocalDraw e blue_path 2] page in
  getLayerObjects (Some "human") (canvasManager after)
  = [FabricObj (set_data blue_path {| agent := Some "human"; timestamp := 2 |})]
  ∧ getLayerObjects (Some "agent-1") (canvasManager after) = []
  ∧ frames after = frames page.
Proof.
  assert ("agent-1" ≠ "human") as Hne by discriminate.
  destruct (stroke_after_drawing_mode stringify_all "agent-1" "#3b82f6"
              {| target := None; propagationStopped := false |} blue_path 2 page Hne)
    as (Hhuman & Hagent & _ & Hframes).
  split; [exact Hhuman|]. split; [exact Hagent | exact Hframes].
Defined.

(** Sixty strokes end on the page. *)
Lemma undo_stack_bounded_witness :
  length (undoStack (canvasManager
                       (session (operate stringify_all) (replicate 60 PointerUp) page)))
  ≤ maxUndoSteps.
Proof.
  exact (undo_stack_bounded stringify_all (replicate 60 PointerUp) page (Nat.le_0_l _)).
Defined.

Lemma page_log_ok : log_ok (conversationManager page).
Proof. split; [apply Nat.le_0_l | constructor]. Qed.

(** The server reports an error and adds an agent. *)
Lemma session_log_bounded_witness :
  let log := conversationManager
               (session (operate stringify_all)
                  [Receive (error "no such agent") 1; Receive (agent_added agent_a) 2]
                  page) in
  length (messages log) ≤ maxMessages
  ∧ st_total (getStats log)
    = st_user (getStats log) + st_agent (getStats log) + st_system (getStats log).
Proof.
  destruct (session_log_bounded stringify_all
              [Receive (error "no such agent") 1; Receive (agent_added agent_a) 2]
              page page_log_ok) as (Hlen & _ & Hstats).
  split; [exact Hlen | exact Hstats].
Defined.

Lemma page_registry_wf : registry_wf page.
Proof. intros k a Hk. simpl in Hk. by rewrite lookup_empty in Hk. Qed.

(** The server adds agent [agent_a]; it is found under its id. *)
Lemma registry_keyed_by_id_witness :
  match getAgentById (Some "a")
          (session (operate stringify_all) [Receive (agent_added agent_a) 1] page) with
  | Some found => agent_id found = "a"
  | None => True
  end.
Proof.
  exact (registry_keyed_by_id stringify_all [Receive (agent_added agent_a) 1] page "a"
           page_registry_wf).
Defined.

(** The draw of ["agent-1"] arrives on the fresh page. *)
Lemma inbound_draw_adds_one_witness :
  let s' := (onmessage stringify_all (canvas_action draw_by_agent_1) 1 page).2 in
  canvas (canvasManager s') = [drawn_path]
  ∧ getLayerObjects (Some "agent-1") (canvasManager s') = [FabricObj drawn_path]
  ∧ frames s' = frames page.
Proof.
  destruct (inbound_draw_adds_one stringify_all draw_by_agent_1 blue_path 1 page
              eq_refl eq_refl) as (Hcanvas & Hlayer & _ & _ & _ & Hframes).
  split; [exact Hcanvas|]. split; [exact Hlayer | exact Hframes].
Defined.

(** [agent_a] is added to the fresh page and removed again. *)
Lemma agent_added_then_removed_witness :
  let s1 := (onmessage stringify_all (agent_added agent_a) 1 page).2 in
  let s2 := (onmessage stringify_all (agent_removed "a") 2 s1).2 in
  getAgentById (Some "a") s1 = Some agent_a
  ∧ agentManager s2 = agentManager page
  ∧ elements s2 = [].
Proof.
  destruct (agent_added_then_removed stringify_all agent_a 1 2 page
              (lookup_empty _) (not_elem_of_nil _))
    as (Hadded & _ & _ & Hregistry & Helements & _).
  split; [exact Hadded|]. split; [exact Hregistry | exact Helements].
Defined.

Lemma page_with_agent_registry_wf : registry_wf page_with_agent.
Proof.
  intros k a Hk.
  change (agents (agentManager page_with_agent))
    with (<["a" := agent_a]> (∅ : gmap string Agent)) in Hk.
  apply lookup_insert_Some in Hk as [[<- <-]|[_ Hk]]; [done|].
  by rewrite lookup_empty in Hk.
Qed.

(** The status of [agent_a] is toggled twice. *)
Lemma toggleAgentStatus_twice_witness :
  let r1 := toggleAgentStatus stringify_all "a" page_with_agent in
  let r2 := toggleAgentStatus stringify_all "a" r1.2 in
  is_active <$> getAgentById (Some "a") r1.2 = Some false
  ∧ agentManager r2.2 = agentManager page_with_agent.
Proof.
  destruct (toggleAgentStatus_twice stringify_all "a" page_with_agent
              page_with_agent_registry_wf)
    as (_ & _ & _ & _ & Hfound & Hregistry & _).
  destruct (Hfound agent_a eq_refl) as (Htoggled & _).
  split; [|exact Hregistry].
  exact (f_equal (fmap is_active) Htoggled).
Defined.

(** One response, of an agent that is not registered. *)
Lemma handleAgentResponses_logs_witness :
  length (messages (conversationManager
                      (handleAgentResponses "where" [("a", "here")] page))) = 2.
Proof.
  destruct (handleAgentResponses_logs "where" [("a", "here")] page (Nat.le_0_l _))
    as (Hlog & _).
  exact (f_equal length Hlog).
Defined.

Lemma page_has_human_layer : has_human_layer page.
Proof. reflexivity. Qed.

(** The statistics after an agent was added and a stroke was drawn. *)
Lemma app_stats_in_session_witness :
  let stats := app_getStats
                 (session (operate stringify_all)
                    [Receive (agent_added agent_a) 1; PointerUp] page) in
  stats_activeAgents stats ≤ stats_agents stats
  ∧ 1 ≤ stats_canvasLayers stats
  ∧ stats_connectionStatus stats = true.
Proof.
  destruct (app_stats_in_session stringify_all
              [Receive (agent_added agent_a) 1; PointerUp] page
              page_has_human_layer page_log_ok) as (Hactive & Hlayers & _ & Hstatus).
  split; [exact Hactive|]. split; [exact Hlayers | exact Hstatus].
Defined.

Lemma page_with_agents_registry_wf : registry_wf page_with_agents.
Proof.
  intros k a Hk.
  change (agents (agentManager page_with_agents))
    with (<["b" := agent_b]> (<["a" := agent_a]> (∅ : gmap string Agent))) in Hk.
  apply lookup_insert_Some in Hk as [[<- <-]|[_ Hk]]; [done|].
  apply lookup_insert_Some in Hk as [[<- <-]|[_ Hk]]; [done|].
  by rewrite lookup_empty in Hk.
Qed.

Lemma form_for_agent_b : showModificationRequestModal "b" page_with_agents = Some [agent_a].
Proof. by vm_compute. Qed.

(** [agent_a] asks [agent_b], through the form, to remove the circle. *)
Lemma form_request_is_accepted_witness :
  let r := submit_modification_request stringify_all "b" agent_a
             "remove the circle" "remove" 7 page_with_agents in
  r.1 = Return (Some (modification_request_of "a" "b" remove_request 7))
  ∧ length (frames r.2) = 1.
Proof.
  assert (agent_a ∈ [agent_a]) as Hoffered by apply list_elem_of_here.
  destruct (form_request_is_accepted stringify_all "b" "remove the circle" "remove" 7
              [agent_a] agent_a page_with_agents
              page_with_agents_registry_wf form_for_agent_b Hoffered)
    as (_ & _ & _ & Hreturned & Hframes & _).
  split; [exact Hreturned|]. exact (f_equal length Hframes).
Defined.
